(** * Build installer: a shallow embedding of [build_installer.py]

    The script scrapes a build catalog, picks a build and an installer
    bundle, and replaces a local installation with it.  This development
    embeds the functions of [.custom_commands/build_installer/build_installer.py]
    (and the calendar lookup it shares with [get_release.py]) as Rocq
    functions and proves properties of them.  Of [download_tester.py],
    the helpers that name the bundles, fetch a reference checksum and
    remove old installers are embedded, and the checks of its command
    line.

    Conventions of the embedding:
    - a Python [str] is a Rocq [string]; the text that the script handles
      (build ids, file names, paths, HTML text) is ASCII, and the case
      mappings below are the ASCII ones;
    - a Python exception is a constructor of [exn]; a call that can raise
      returns a [result];
    - code that touches the file system, the network or a process runs in
      the monad [M], a state monad over [world] with exceptions;
    - the file system maps the path strings that the script uses to files
      and directories; permissions and links are not modelled;
    - logging is not modelled. *)

From Stdlib Require Import ZArith String Ascii List Bool Lia Sorted.
From stdpp Require Import base option list sorting gmap strings.
Import ListNotations.
Open Scope Z_scope.
Open Scope string_scope.

(** ** Python values: exceptions and results *)

Module Py.

Inductive exn : Type :=
  | IndexError
  | ValueError
  | KeyError
  | TypeError
  | AttributeError
  | ZeroDivisionError
  | UnboundLocalError
  | RuntimeError
  | FileNotFoundError
  | IsADirectoryError
  | NotADirectoryError
  | FileExistsError
  | NameError
  | ConnectionError
  | HTTPError
  | CalledProcessError.

Inductive result (A : Type) : Type :=
  | Ok (a : A)
  | Raise (e : exn).
Arguments Ok {A} a.
Arguments Raise {A} e.

Definition rbind {A B} (r : result A) (k : A -> result B) : result B :=
  match r with
  | Ok a => k a
  | Raise e => Raise e
  end.

Definition of_option {A} (e : exn) (o : option A) : result A :=
  match o with
  | Some a => Ok a
  | None => Raise e
  end.

(** *** Characters *)

Definition code (c : ascii) : Z := Z.of_nat (nat_of_ascii c).

Definition is_upper (c : ascii) : bool := (65 <=? code c)%Z && (code c <=? 90)%Z.
Definition is_lower (c : ascii) : bool := (97 <=? code c)%Z && (code c <=? 122)%Z.
Definition is_digit (c : ascii) : bool := (48 <=? code c)%Z && (code c <=? 57)%Z.

Definition to_upper (c : ascii) : ascii :=
  if is_lower c then ascii_of_nat (nat_of_ascii c - 32) else c.
Definition to_lower (c : ascii) : ascii :=
  if is_upper c then ascii_of_nat (nat_of_ascii c + 32) else c.

(** [Py_ISSPACE], the white space that [int()] skips: space and
    [\t \n \v \f \r]. *)
Definition is_cspace (c : ascii) : bool :=
  (code c =? 32)%Z || ((9 <=? code c)%Z && (code c <=? 13)%Z).

(** The white space of [str.strip()] and [str.isspace()] below U+0080:
    the above and the separators U+001C..U+001F. *)
Definition is_space (c : ascii) : bool :=
  is_cspace c || ((28 <=? code c)%Z && (code c <=? 31)%Z).

Definition is_word (c : ascii) : bool :=
  is_digit c || is_upper c || is_lower c || (code c =? 95)%Z.

Definition digit_val (c : ascii) : option Z :=
  if is_digit c then Some (code c - 48) else None.

(** *** Strings *)

Fixpoint smap (f : ascii -> ascii) (s : string) : string :=
  match s with
  | EmptyString => EmptyString
  | String c r => String (f c) (smap f r)
  end.

(** [s.capitalize()] *)
Definition capitalize (s : string) : string :=
  match s with
  | EmptyString => EmptyString
  | String c r => String (to_upper c) (smap to_lower r)
  end.

(** [s.lower()] *)
Definition lower (s : string) : string := smap to_lower s.

(** [s.replace(old, new)] for one-character [old] and [new]. *)
Definition replace_char (old new : ascii) (s : string) : string :=
  smap (fun c => if Ascii.eqb c old then new else c) s.

(** [s[i]] for [i >= 0]. *)
Definition index (s : string) (i : nat) : result ascii :=
  of_option IndexError (String.get i s).

(** [s[i:j]] for [0 <= i <= j]; a slice never raises. *)
Definition slice (s : string) (i j : nat) : string :=
  String.substring i (j - i) s.

(** [sub in s] *)
Fixpoint contains (sub s : string) : bool :=
  String.prefix sub s ||
  match s with
  | EmptyString => false
  | String _ r => contains sub r
  end.

Fixpoint drop_while (p : ascii -> bool) (s : string) : string :=
  match s with
  | EmptyString => EmptyString
  | String c r => if p c then drop_while p r else s
  end.

Fixpoint srev_onto (s acc : string) : string :=
  match s with
  | EmptyString => acc
  | String c r => srev_onto r (String c acc)
  end.
Definition srev (s : string) : string := srev_onto s EmptyString.

(** [s.strip()] *)
Definition strip (s : string) : string :=
  srev (drop_while is_space (srev (drop_while is_space s))).

(** [s.split(sep)] for a one-character [sep]: the pieces between the
    separators, at least one piece. *)
Fixpoint split_char (sep : ascii) (s : string) : list string :=
  match s with
  | EmptyString => [EmptyString]
  | String c r =>
      if Ascii.eqb c sep then EmptyString :: split_char sep r
      else match split_char sep r with
           | p :: ps => String c p :: ps
           | [] => [String c EmptyString]
           end
  end.

(** ['/'.join(parts)] *)
Fixpoint join (sep : string) (parts : list string) : string :=
  match parts with
  | [] => EmptyString
  | [p] => p
  | p :: ps => p ++ sep ++ join sep ps
  end.

(** The digits of a decimal literal after its first digit: digits, each
    optionally preceded by one underscore.  Returns the value and what
    follows the literal. *)
Fixpoint digits_tail (acc : Z) (s : string) : option (Z * string) :=
  match s with
  | EmptyString => Some (acc, EmptyString)
  | String c r =>
      match digit_val c with
      | Some d => digits_tail (acc * 10 + d) r
      | None =>
          if Ascii.eqb c "_" then
            match r with
            | String c' r' =>
                match digit_val c' with
                | Some d => digits_tail (acc * 10 + d) r'
                | None => None
                end
            | EmptyString => None
            end
          else Some (acc, s)
      end
  end.

(** [int(s)] for a string, base 10: white space, an optional sign, a
    decimal literal, white space. *)
Definition int (s : string) : result Z :=
  let s1 := drop_while is_cspace s in
  let '(sign, s2) :=
    match s1 with
    | String "-" r => (-1, r)
    | String "+" r => (1, r)
    | _ => (1, s1)
    end in
  match s2 with
  | String c r =>
      match digit_val c with
      | Some d =>
          match digits_tail d r with
          | Some (v, rest) =>
              match drop_while is_cspace rest with
              | EmptyString => Ok (sign * v)
              | _ => Raise ValueError
              end
          | None => Raise ValueError
          end
      | None => Raise ValueError
      end
  | EmptyString => Raise ValueError
  end.

Fixpoint take_while (p : ascii -> bool) (s : string) : string :=
  match s with
  | EmptyString => EmptyString
  | String c r => if p c then String c (take_while p r) else EmptyString
  end.

Fixpoint drop (n : nat) (s : string) : string :=
  match n, s with
  | S n', String _ r => drop n' r
  | _, _ => s
  end.

(** [s.endswith(suf)] *)
Definition endswith (suf s : string) : bool := String.prefix (srev suf) (srev s).

(** [re.search(lit + '[\d\w]+', s)]: the leftmost place where [lit] is
    followed by a word character, with all the word characters there. *)
Fixpoint search_lit_word (lit s : string) : option string :=
  let here :=
    if String.prefix lit s then
      match take_while is_word (drop (String.length lit) s) with
      | EmptyString => None
      | word => Some (lit ++ word)
      end
    else None in
  match here, s with
  | Some m, _ => Some m
  | None, String _ r => search_lit_word lit r
  | None, EmptyString => None
  end.

(** Truthiness of a value that is [None] or a string. *)
Definition truthy (o : option string) : bool :=
  match o with
  | Some (String _ _) => true
  | _ => false
  end.

End Py.

Export Py.

Notation "'let*' x ':=' r 'in' k" := (rbind r (fun x => k))
  (at level 10, x pattern, r at level 100, k at level 200).

(** ** The parse tree of an HTML page, as [bs4] exposes it *)

Module Soup.

(** A page element: a run of text or a tag with attributes and children. *)
#[warnings="-register-all"] Inductive node : Type :=
  | Text (s : string)
  | Tag (name : string) (attrs : list (string * string)) (children : list node).

(** An element as [bs4] hands it out: the element and the siblings that
    follow it under its parent. *)
Definition element : Type := node * list node.

Definition is_tag (n : node) : bool :=
  match n with
  | Tag _ _ _ => true
  | Text _ => false
  end.

Definition tag_name (n : node) : option string :=
  match n with
  | Tag nm _ _ => Some nm
  | Text _ => None
  end.

Definition contents (n : node) : list node :=
  match n with
  | Tag _ _ cs => cs
  | Text _ => []
  end.

(** [tag.text]: the text of all descendants, in document order. *)
Fixpoint text (n : node) : string :=
  match n with
  | Text s => s
  | Tag _ _ cs =>
      (fix go (l : list node) : string :=
         match l with
         | [] => EmptyString
         | c :: l' => text c ++ go l'
         end) cs
  end.

(** [tag.string]: the text of a tag whose only child is a text, or a tag
    that itself has a [.string]; [None] otherwise. *)
Fixpoint string_of (n : node) : option string :=
  match n with
  | Text s => Some s
  | Tag _ _ [c] => string_of c
  | Tag _ _ _ => None
  end.

(** [tag.descendants], preceded by the tag itself: every element below,
    in document order, each with its following siblings. *)
Fixpoint walk (n : node) (after : list node) : list element :=
  (n, after) ::
  match n with
  | Text _ => []
  | Tag _ _ cs =>
      (fix go (l : list node) : list element :=
         match l with
         | [] => []
         | c :: l' => (walk c l' ++ go l')%list
         end) cs
  end.

Fixpoint descendants (cs : list node) : list element :=
  match cs with
  | [] => []
  | c :: l' => (walk c l' ++ descendants l')%list
  end.

(** [tag.find_all(pred)] *)
Definition find_all (pred : node -> bool) (cs : list node) : list element :=
  List.filter (fun e => is_tag (fst e) && pred (fst e)) (descendants cs).

(** [tag.find_all(name)] *)
Definition find_all_named (nm : string) (cs : list node) : list element :=
  find_all (fun n => match tag_name n with
                     | Some nm' => String.eqb nm' nm
                     | None => false
                     end) cs.

(** [soup.find(name, text=s)]: the first tag of that name whose [.string]
    is [s]. *)
Definition find (nm s : string) (cs : list node) : option element :=
  List.find
    (fun e => match fst e with
              | Tag nm' _ _ =>
                  String.eqb nm' nm &&
                  match string_of (fst e) with
                  | Some s' => String.eqb s' s
                  | None => false
                  end
              | Text _ => false
              end)
    (descendants cs).

(** [tag.find_next_sibling()]: the next sibling that is a tag. *)
Fixpoint next_tag (after : list node) : option element :=
  match after with
  | [] => None
  | Tag nm a cs :: l' => Some (Tag nm a cs, l')
  | Text _ :: l' => next_tag l'
  end.
Definition find_next_sibling (e : element) : option element := next_tag (snd e).

(** [tag[key]] *)
Fixpoint assoc (key : string) (attrs : list (string * string)) : option string :=
  match attrs with
  | [] => None
  | (k, v) :: l' => if String.eqb k key then Some v else assoc key l'
  end.
Definition getitem (n : node) (key : string) : result string :=
  match n with
  | Tag _ a _ => of_option KeyError (assoc key a)
  | Text _ => Raise TypeError
  end.

End Soup.

(** ** The world outside the script *)

Module World.

(** The file system: a path names a regular file or a directory. *)
Inductive entry : Type :=
  | File (content : string)
  | Dir.

(** What the script does to the outside, in the order it does it. *)
Inductive event : Type :=
  | EvGet (url : string)
  | EvPost (url : string) (form : list (string * string))
  | EvRun (cmd : list string) (cwd : option string)
  | EvRemove (path : string)
  | EvRmtree (path : string)
  | EvMkdir (path : string)
  | EvOpenW (path : string)
  | EvWrite (path : string) (data : string)
  | EvChmod (path : string) (mode : Z)
  | EvSleep (seconds : Z)
  | EvPrint (line : string).

Record world : Type := mkWorld {
  fs : gmap string entry;
  trace : list event;
  clock : Z
}.

Definition set_fs (f : gmap string entry) (w : world) : world :=
  mkWorld f (trace w) (clock w).
Definition log (ev : event) (w : world) : world :=
  mkWorld (fs w) (trace w ++ [ev])%list (clock w).
Definition logs (evs : list event) (w : world) : world :=
  mkWorld (fs w) (trace w ++ evs)%list (clock w).

(** An HTTP response: [parsed] is what [BeautifulSoup(page.content,
    'html.parser')] makes of the body, [chunks] what [iter_content]
    yields. *)
Record response : Type := mkResponse {
  status_code : Z;
  content_length : option string;
  parsed : list Soup.node;
  chunks : list string;
  body_text : string
}.

(** Google credentials, as far as the script looks at them. *)
Record creds : Type := mkCreds {
  valid : bool;
  expired : bool;
  refresh_token : bool
}.

(** A calendar event: its title, if it has one. *)
Record cal_event : Type := mkCalEvent { summary : option string }.

(** The monad of the script: state passing over [world], with exceptions. *)
Definition M (A : Type) : Type := world -> world * result A.

Definition ret {A} (a : A) : M A := fun w => (w, Ok a).
Definition raise {A} (e : exn) : M A := fun w => (w, Raise e).
Definition lift {A} (r : result A) : M A := fun w => (w, r).
Definition bind {A B} (m : M A) (k : A -> M B) : M B :=
  fun w =>
    match m w with
    | (w', Ok a) => k a w'
    | (w', Raise e) => (w', Raise e)
    end.
Definition emit (ev : event) : M unit := fun w => (log ev w, Ok tt).

(** [try: body finally: cleanup].  An exception of [cleanup] replaces
    the outcome of [body]. *)
Definition finally {A} (body : M A) (cleanup : M unit) : M A :=
  fun w =>
    let '(w1, r) := body w in
    match cleanup w1 with
    | (w2, Ok _) => (w2, r)
    | (w2, Raise e) => (w2, Raise e)
    end.

(** What the script relies on and does not define: the platform, the
    web, the processes it starts, and the library calls kept abstract.
    An outside action sees the world and answers with the file system it
    leaves behind and its outcome. *)
Record env : Type := mkEnv {
  sys_platform : string;
  requests_get : world -> string -> result response;
  requests_post : world -> string -> list (string * string) -> result response;
  (** starting a process and waiting for it: it may change the file
      system; the outcome is the exit status and the captured output, or
      the exception of a process that cannot be started *)
  run_process : list string -> option string -> world -> gmap string entry * result (Z * string);
  os_path_join : string -> string -> string;
  os_path_basename : string -> string;
  os_path_splitext : string -> string * string;
  os_path_abspath : string -> string;
  expanduser_home : string;
  getenv_userprofile : option string;
  getcwd : string;
  os_listdir : world -> string -> result (list string);
  shutil_move : string -> string -> world -> gmap string entry * result unit;
  zip_extractall : string -> string -> world -> gmap string entry * result unit;
  tar_extractall : string -> string -> world -> gmap string entry * result unit;
  strftime_ymd : Z -> string;
  pickle_load : string -> result creds;
  pickle_dump : creds -> string;
  creds_refresh : creds -> world -> gmap string entry * result creds;
  run_local_server : world -> gmap string entry * result creds;
  calendar_list : creds -> Z -> Z -> world -> result (list cal_event)
}.

End World.

Export World.

Notation "'let!' x ':=' m 'in' k" := (bind m (fun x => k))
  (at level 10, x pattern, m at level 100, k at level 200).

(** ** Operating-system calls on the modelled world *)

Module OS.

Definition exists_ (p : string) (w : world) : bool :=
  match fs w !! p with
  | Some _ => true
  | None => false
  end.

Definition isdir (p : string) (w : world) : bool :=
  match fs w !! p with
  | Some Dir => true
  | _ => false
  end.

Definition isfile (p : string) (w : world) : bool :=
  match fs w !! p with
  | Some (File _) => true
  | _ => false
  end.

Definition backslash : string := String (ascii_of_nat 92) EmptyString.


(** [k] is [p] or lies below it: [p], a slash and more; on Windows also
    [p], a backslash and more.  Elsewhere a backslash is a character of
    a name like any other. *)
Definition below (windows : bool) (p k : string) : bool :=
  String.eqb k p || String.prefix (p ++ "/") k
  || (windows && String.prefix (p ++ backslash) k).

Definition remove_tree (windows : bool) (p : string) (f : gmap string entry)
  : gmap string entry :=
  filter (fun kv => below windows p (fst kv) = false) f.

(** [os.remove(p)] *)
Definition remove (p : string) : M unit :=
  fun w =>
    match fs w !! p with
    | Some (File _) => (log (EvRemove p) (set_fs (delete p (fs w)) w), Ok tt)
    | Some Dir => (w, Raise IsADirectoryError)
    | None => (w, Raise FileNotFoundError)
    end.

(** [Path(p).mkdir(parents=True)], where the directory that is to hold
    [p] exists: the world gains [p] and nothing else. *)
Definition mkdir_parents (p : string) : M unit :=
  fun w =>
    match fs w !! p with
    | Some _ => (w, Raise FileExistsError)
    | None => (log (EvMkdir p) (set_fs (<[p := Dir]> (fs w)) w), Ok tt)
    end.

(** [open(p, 'w')], where the directory that is to hold [p] exists:
    the file is created or emptied. *)
Definition open_w (p : string) : M unit :=
  fun w =>
    match fs w !! p with
    | Some Dir => (w, Raise IsADirectoryError)
    | _ => (log (EvOpenW p) (set_fs (<[p := File EmptyString]> (fs w)) w), Ok tt)
    end.

(** [file_handle.write(data)] on a file opened at [p]. *)
Definition write (p data : string) : M unit :=
  fun w =>
    match fs w !! p with
    | Some (File c) => (log (EvWrite p data) (set_fs (<[p := File (c ++ data)]> (fs w)) w), Ok tt)
    | _ => (log (EvWrite p data) w, Ok tt)
    end.

(** [open(p, 'r').read()] *)
Definition read (p : string) : M string :=
  fun w =>
    match fs w !! p with
    | Some (File c) => (w, Ok c)
    | Some Dir => (w, Raise IsADirectoryError)
    | None => (w, Raise FileNotFoundError)
    end.

(** [time.sleep(n)] *)
Definition sleep (n : Z) : M unit :=
  fun w => (log (EvSleep n) (mkWorld (fs w) (trace w) (clock w + n)), Ok tt).

(** [DT.datetime.now()], in seconds. *)
Definition now : M Z := fun w => (w, Ok (clock w)).

Section WithEnv.
Context (E : env).

Definition startswith (pre : string) : bool := String.prefix pre (sys_platform E).

(** [shutil.rmtree(p)] *)
Definition rmtree (p : string) : M unit :=
  fun w =>
    match fs w !! p with
    | Some Dir =>
        (log (EvRmtree p) (set_fs (remove_tree (startswith "win32") p (fs w)) w), Ok tt)
    | Some (File _) => (w, Raise NotADirectoryError)
    | None => (w, Raise FileNotFoundError)
    end.

(** [requests.get(url)] *)
Definition get (url : string) : M response :=
  fun w => (log (EvGet url) w, requests_get E w url).

(** [requests.post(url, data=form)] *)
Definition post (url : string) (form : list (string * string)) : M response :=
  fun w => (log (EvPost url form) w, requests_post E w url form).

(** [resp.raise_for_status()] *)
Definition raise_for_status (resp : response) : M unit :=
  if (400 <=? status_code resp)%Z && (status_code resp <? 600)%Z
  then raise HTTPError else ret tt.

(** An outside action, run on the current world. *)
Definition external {A} (act : world -> gmap string entry * result A) : M A :=
  fun w => (set_fs (fst (act w)) w, snd (act w)).

(** [subprocess.run(cmd, cwd=cwd)] *)
Definition subprocess_run (cmd : list string) (cwd : option string) : M (Z * string) :=
  let! _ := emit (EvRun cmd cwd) in
  external (run_process E cmd cwd).

(** [subprocess.check_call(cmd, cwd=cwd)] *)
Definition check_call (cmd : list string) (cwd : option string) : M unit :=
  let! out := subprocess_run cmd cwd in
  if (fst out =? 0)%Z then ret tt else raise CalledProcessError.

(** [subprocess.check_output(cmd)] *)
Definition check_output (cmd : list string) : M string :=
  let! out := subprocess_run cmd None in
  if (fst out =? 0)%Z then ret (snd out) else raise CalledProcessError.

End WithEnv.

End OS.

(** ** [build_installer.py] *)

Module Installer.
Import OS.

Definition BASE_URL : string := "http://build-download.schrodinger.com".

Definition newline : ascii := ascii_of_nat 10.

(** [format_buildID(build_id)], lines 386-401, for a build id of ASCII
    characters. *)
Definition format_buildID (build_id : string) : result string :=
  let format1 := replace_char "-" " " (capitalize build_id) in
  let* c6 := index format1 6 in
  let* d := int (String c6 EmptyString) in
  let* formatted_buildID :=
    (if (d =? 0)%Z then
       fold_left
         (fun acc i =>
            let* formatted := acc in
            if negb (Nat.eqb i 6) then
              let* c := index format1 i in
              Ok (formatted ++ String c EmptyString)
            else Ok formatted)
         (seq 0 (String.length build_id)) (Ok EmptyString)
     else Ok EmptyString) in
  if String.eqb formatted_buildID EmptyString then Ok format1
  else Ok formatted_buildID.

(** The bundle-type header and the link filter of [get_bundle_name],
    lines 484-487 and 499-502. *)
Definition header_of (bundle_type : string) : string :=
  if String.eqb (lower bundle_type) "desres" then "Academic"
  else capitalize bundle_type.

Definition filter_of (bundle_type platform : string) : string :=
  if String.eqb (lower bundle_type) "desres" then "DESRES" else platform.

(** Lines 503-504: the [a] tags below [installers] whose text contains
    the filter. *)
Definition matching_links (filter_ : string) (installers : Soup.element)
  : list Soup.element :=
  Soup.find_all
    (fun tag => match Soup.tag_name tag with
                | Some nm => String.eqb nm "a" && contains filter_ (Soup.text tag)
                | None => false
                end)
    (Soup.contents (fst installers)).

(** Lines 518-523: the file name of a link.  A [bs4] tag is always
    truthy, so the [if installer:] is taken. *)
Definition installer_file_of (installer : Soup.element) : result string :=
  let* href := Soup.getitem (fst installer) "href" in
  Ok (List.last (split_char "/" href) EmptyString).

(** Lines 484-523 of [get_bundle_name], on the parsed page. *)
Definition bundle_name_in (page : list Soup.node)
    (bundle_type platform : string) (knime : bool) : result (option string) :=
  let header := header_of bundle_type in
  (* try: ... except AttributeError: return None *)
  match Soup.find "h3" (header ++ " Installers") page with
  | None => Ok None
  | Some bundle_type_header =>
      match Soup.find_next_sibling bundle_type_header with
      | None => Raise AttributeError        (* None.find_all, line 503 *)
      | Some installers =>
          let installers := matching_links (filter_of bundle_type platform) installers in
          if Nat.eqb (List.length installers) 0 then Ok None
          else
            let* installer := of_option IndexError (nth_error installers 0) in
            let* installer :=
              (if String.eqb platform "MacOSX" && negb knime
                  && negb (String.eqb bundle_type "academic")
               then of_option IndexError (nth_error installers 1)
               else Ok installer) in
            let* installer_file := installer_file_of installer in
            Ok (Some installer_file)
      end
  end.

Section WithEnv.
Context (E : env).

(** [get_bundle_name], lines 461-523. *)
Definition get_bundle_name (release build_type build_page bundle_type platform : string)
    (knime : bool) : M (option string) :=
  let URL := join "/" [BASE_URL; build_type; release; build_page] in
  let! page := get E URL in
  let! _ := raise_for_status page in
  lift (bundle_name_in (parsed page) bundle_type platform knime).

(** Lines 438-441: the build ids of the listing page. *)
Definition parse_builds (page : list Soup.node) : result (list string) :=
  let all_uls := Soup.find_all_named "ul" page in
  let* ul := of_option IndexError (nth_error all_uls 1) in
  let builds_list := split_char newline (Soup.text (fst ul)) in
  Ok (List.map strip (List.filter (fun id => contains "build" id) builds_list)).

(** Lines 443-444: the listing is reversed when its last suffix is
    greater than its first. *)
Definition arrange (builds_list : list string) : result (list string) :=
  let* last := of_option IndexError (List.last (List.map Some builds_list) None) in
  let* a := int (slice last 6 9) in
  let* first := of_option IndexError (nth_error builds_list 0) in
  let* b := int (slice first 6 9) in
  Ok (if (a >? b)%Z then List.rev builds_list else builds_list).

(** Lines 450-455: the loop over the builds.  [st] holds [latest_build]
    and [bundle_name] once they are bound. *)
Fixpoint scan (release build_type bundle_type platform : string) (knime : bool)
    (builds_list : list string) (st : option (string * option string))
  : M (option (string * option string)) :=
  match builds_list with
  | [] => ret st
  | build_page :: rest =>
      let! bundle_name :=
        get_bundle_name release build_type build_page bundle_type platform knime in
      if truthy bundle_name then ret (Some (build_page, bundle_name))
      else scan release build_type bundle_type platform knime rest
             (Some (build_page, bundle_name))
  end.

Definition platform_name : string :=
  if startswith E "win32" then "Windows"
  else if startswith E "darwin" then "MacOSX"
  else "Linux".

(** [get_build_info], lines 404-458. *)
Definition get_build_info (release build_type bundle_type : string) (knime : bool)
  : M (string * option string) :=
  let platform := platform_name in
  let URL := join "/" [BASE_URL; build_type; release] in
  let! page := get E URL in
  let! builds_list := lift (parse_builds (parsed page)) in
  let! builds_list := lift (arrange builds_list) in
  let! st := scan release build_type bundle_type platform knime builds_list None in
  match st with
  | Some r => ret r
  | None => raise UnboundLocalError   (* latest_build, line 456 *)
  end.

(** [download_file], lines 238-275.  The sizes are kept in bytes; the
    division by the total size fails when it is zero.  The header is
    taken to be short enough for [int] and for the division of line 261
    (a number below 10^308), and the target to lie in a directory that
    exists. *)
Fixpoint write_chunks (target : string) (total_size : Z) (cs : list string) : M unit :=
  match cs with
  | [] => ret tt
  | chunk :: rest =>
      if String.eqb chunk EmptyString then write_chunks target total_size rest
      else
        let! _ := (if (total_size =? 0)%Z then raise ZeroDivisionError else ret tt) in
        let! _ := write target chunk in
        write_chunks target total_size rest
  end.

Definition download_file (url target : string) : M unit :=
  let! present := (fun w => (w, Ok (exists_ target w))) in
  let! _ := (if present : bool then remove target else ret tt) in
  let! resp := get E url in
  let! _ := raise_for_status resp in
  let! len := lift (of_option KeyError (content_length resp)) in
  let! total_size := lift (int len) in
  let! _ := open_w target in
  write_chunks target total_size (chunks resp).

(** Lines 295-316, shared with [get_release.py] lines 24-48: the stored
    token, refreshed or replaced by a log-in when it is not valid. *)
Definition login : M creds :=
  let! has_secrets :=
    (fun w => (w, Ok (isfile (os_path_join E (getcwd E) "credentials.json") w))) in
  if has_secrets : bool then external (run_local_server E) else raise FileNotFoundError.

Definition obtain_creds (token_path : string) : M creds :=
  let! has_token := (fun w => (w, Ok (exists_ token_path w))) in
  let! creds :=
    (if has_token : bool then
       let! content := read token_path in
       let! c := lift (pickle_load E content) in
       ret (Some c)
     else ret None) in
  match creds with
  | Some c =>
      if valid c then ret c
      else
        let! c' := (if expired c && refresh_token c then external (creds_refresh E c) else login) in
        let! _ := open_w token_path in
        let! _ := write token_path (pickle_dump E c') in
        ret c'
  | None =>
      let! c' := login in
      let! _ := open_w token_path in
      let! _ := write token_path (pickle_dump E c') in
      ret c'
  end.

Definition weeks (n : Z) : Z := n * 7 * 24 * 3600.

(** Lines 321-333: the events between now and fifteen weeks ahead. *)
Definition release_targets (c : creds) : M (list cal_event) :=
  let! now_ := now in
  let! later := now in
  let fifteen_weeks_ahead := (later + weeks 15)%Z in
  fun w => (w, calendar_list E c now_ fifteen_weeks_ahead w).

(** [get_current_release], lines 278-341.  The result [None] is the
    [False] of line 339. *)
Definition get_current_release (token_path : string) : M (option string) :=
  let! c := obtain_creds token_path in
  let! items := release_targets c in
  let! first := lift (of_option IndexError (nth_error items 0)) in
  let! title := lift (of_option KeyError (summary first)) in
  let current_release := "20" ++ slice title 0 4 in
  if Nat.eqb (List.length items) 0 then ret None
  else ret (Some current_release).

(** [create_clean_dirs], lines 220-235. *)
Definition create_clean_dirs (dir : string) : M unit :=
  let! present := (fun w => (w, Ok (exists_ dir w))) in
  let! _ := (if present : bool then rmtree E dir else ret tt) in
  mkdir_parents dir.

(** The mount and unmount commands of [mount_dmg], lines 700-702 and 720. *)
Definition attach_cmd (dmg_path : string) : list string :=
  ["hdiutil"; "attach"; "-mountrandom"; "/Volumes"; "-nobrowse"; dmg_path].
Definition detach_cmd (mount_point : string) : list string :=
  ["hdiutil"; "detach"; "-force"; mount_point].

(** [mount_dmg], lines 694-720, applied to the body of its [with]. *)
Definition mount_dmg {A} (dmg_path : string) (body : string -> M A) : M A :=
  if negb (startswith E "darwin") then raise RuntimeError
  else
    let cmd := attach_cmd dmg_path in
    let! output := check_output E cmd in
    match search_lit_word "/Volumes/dmg." output with
    | None => raise RuntimeError
    | Some mount_point =>
        finally (body mount_point)
                (check_call E (detach_cmd mount_point) None)
    end.

Fixpoint move_all (dirname destination : string) (names : list string) : M unit :=
  match names with
  | [] => ret tt
  | name :: rest =>
      let src := os_path_join E dirname name in
      let! _ := external (shutil_move E src destination) in
      move_all dirname destination rest
  end.

(** Lines 373-383: the extracted files are moved up from their
    sub-directory, which is removed in any case. *)
Definition flatten (bundle_path destination : string) : M unit :=
  let dirname :=
    os_path_join E destination
      (fst (os_path_splitext E (os_path_basename E bundle_path))) in
  finally
    (let! names := (fun w => (w, os_listdir E w dirname)) in
     move_all dirname destination names)
    (rmtree E dirname).

(** The body of the [with mount_dmg(...)] of lines 364-368. *)
Definition xar_cmd (bundle_path destination mount_point : string) : list string :=
  let bundle_name := os_path_basename E bundle_path in
  let pkg_path :=
    os_path_join E mount_point (fst (os_path_splitext E bundle_name) ++ ".pkg") in
  ["xar"; "-C"; destination; "-xvf"; pkg_path].

Definition xar_extract (bundle_path destination mount_point : string) : M unit :=
  check_call E (xar_cmd bundle_path destination mount_point) None.

(** [extract_bundle], lines 344-383. *)
Definition extract_bundle (bundle_path destination : string) : M unit :=
  if startswith E "win32" then
    let! _ := external (zip_extractall E bundle_path destination) in
    flatten bundle_path destination
  else if startswith E "linux" then
    let! _ := external (tar_extractall E bundle_path destination) in
    flatten bundle_path destination
  else if startswith E "darwin" then
    mount_dmg bundle_path (xar_extract bundle_path destination)
  else raise RuntimeError.

(** [get_local_build_version], lines 526-543. *)
Definition get_local_build_version (local_installation_path : string) : M string :=
  let version_file := os_path_join E local_installation_path "version.txt" in
  read version_file.

(** [_run_install_cmd], lines 566-580. *)
Definition _run_install_cmd (cmd : list string) (cwd : string) : M unit :=
  check_call E cmd (Some cwd).

(** [_get_windows_install_cmd], lines 583-589. *)
Definition _get_windows_install_cmd (installer_dir target_dir : string) : list string :=
  let setup_silent := os_path_join E installer_dir "setup-silent.exe" in
  [setup_silent; "/interactive_mode:off"; "/install";
   "/installdir:'" ++ target_dir ++ "'"; "/force"].

(** [_get_linux_install_cmd], lines 592-599. *)
Definition _get_linux_install_cmd (installer_dir target_dir : string) : M (list string) :=
  let cmd :=
    ["./INSTALL"; "-b"; "-d"; installer_dir; "-t";
     os_path_join E target_dir "thirdparty"; "-s"; target_dir; "-k"; "/scr";
     "--allow_deprecated"] in
  let! names := (fun w => (w, os_listdir E w installer_dir)) in
  ret (cmd ++ List.filter (fun d => endswith ".tar.gz" d) names)%list.

(** [_darwin_install], lines 602-633.  [gunzip] is started, [cpio] runs
    on its output, and then the exit status of [gunzip] is looked at. *)
Fixpoint darwin_payloads (installer_dir target_dir : string) (names : list string) : M unit :=
  match names with
  | [] => ret tt
  | file_path :: rest =>
      if negb (String.eqb (snd (os_path_splitext E file_path)) ".pkg")
      then darwin_payloads installer_dir target_dir rest
      else
        let payload := os_path_join E file_path "Payload" in
        let! gunzip := subprocess_run E ["gunzip"; "-c"; payload] (Some installer_dir) in
        let! _ := check_call E ["cpio"; "-i"] (Some target_dir) in
        if negb (fst gunzip =? 0)%Z then raise CalledProcessError
        else darwin_payloads installer_dir target_dir rest
  end.

Definition _darwin_install (release installer_dir target_dir : string) : M unit :=
  let target_dir := target_dir ++ "/" in
  let! names := (fun w => (w, os_listdir E w installer_dir)) in
  darwin_payloads installer_dir target_dir names.

(** [install_schrodinger_bundle], lines 546-563. *)
Definition install_schrodinger_bundle (release bundle_installer local_install_dir : string)
  : M unit :=
  let install_tmpdir := os_path_join E local_install_dir "install_tmpdir" in
  let! _ := create_clean_dirs install_tmpdir in
  let! _ := extract_bundle bundle_installer install_tmpdir in
  let! _ :=
    (if startswith E "win32" then
       _run_install_cmd (_get_windows_install_cmd install_tmpdir local_install_dir)
                        install_tmpdir
     else if startswith E "linux" then
       let! cmd := _get_linux_install_cmd install_tmpdir local_install_dir in
       _run_install_cmd cmd install_tmpdir
     else if startswith E "darwin" then
       _darwin_install release install_tmpdir local_install_dir
     else raise TypeError (* sys.platform(), line 561 *)) in
  rmtree E install_tmpdir.

(** [install_license_stub], lines 642-659. *)
Definition install_license_stub (installation_dir : string) : M unit :=
  let license_dir := os_path_join E installation_dir "licenses" in
  let! _ := create_clean_dirs license_dir in
  let! today := now in
  let current_date := strftime_ymd E today in
  let lic_filename := "80_client_" ++ current_date ++ "_pdx-lic-lv01.lic" in
  let! _ := open_w lic_filename in
  let! _ := write lic_filename ("SERVER pdx-lic-lv01 ANY 27008" ++ String newline EmptyString) in
  let! _ := write lic_filename "USE_SERVER" in
  external (shutil_move E lic_filename license_dir).

(** [install_schrodinger_hosts], lines 662-691. *)
Definition install_schrodinger_hosts (build_type release build_id installation_dir : string)
  : M unit :=
  let url := "http://build-download.schrodinger.com/generatehosts/generate_hosts_file" in
  let form_data :=
    [("build_type", build_type); ("release", release); ("build_id", build_id)] in
  let! resp := post E url form_data in
  let! _ := raise_for_status resp in
  let! _ := open_w "schrodinger.hosts" in
  let! _ := write "schrodinger.hosts" (body_text resp) in
  let hosts_path := os_path_join E installation_dir "schrodinger.hosts" in
  let! stock := (fun w => (w, Ok (isfile hosts_path w))) in
  let! _ := (if stock : bool then remove hosts_path else ret tt) in
  let! _ := external (shutil_move E "schrodinger.hosts" installation_dir) in
  let! there := (fun w => (w, Ok (exists_ hosts_path w))) in
  if there : bool then emit (EvChmod hosts_path 510) else raise FileNotFoundError.

(** [uninstall], lines 723-737. *)
Definition uninstall (release installation_dir : string) : M unit :=
  let! _ :=
    (if startswith E "win32" then
       let uninstaller :=
         installation_dir ++ backslash ++ "installer" ++ backslash ++ "uninstall-silent.exe" in
       let! _ := subprocess_run E [uninstaller; "/interactive_mode:off"; "/cleanall"] None in
       sleep 10
     else ret tt) in
  let! present := (fun w => (w, Ok (exists_ installation_dir w))) in
  if present : bool then rmtree E installation_dir else ret tt.

(** Lines 805-813 of [main]: the download and, unless only the download
    was asked for, the installation. *)
Definition download_and_install (build_type release latest_build download_url
    bundle_path local_install_dir : string) (download_only : bool) : M unit :=
  let! _ := download_file download_url bundle_path in
  if download_only then ret tt
  else
    let! _ := install_schrodinger_bundle release bundle_path local_install_dir in
    let! _ := install_schrodinger_hosts build_type release latest_build local_install_dir in
    install_license_stub local_install_dir.

(** Lines 789-813 of [main]: the check of the local installation and
    what follows from it. *)
Definition main_install (build_type release latest_build download_url
    bundle_path local_install_dir : string) (download_only : bool) : M unit :=
  let proceed :=
    download_and_install build_type release latest_build download_url
      bundle_path local_install_dir download_only in
  let! found := (fun w => (w, Ok (isdir local_install_dir w))) in
  if found : bool then
    let! local_version := get_local_build_version local_install_dir in
    let! up_to_date :=
      (if truthy (Some release) then
         let! display := lift (format_buildID latest_build) in
         ret (contains display local_version)
       else ret false) in
    if up_to_date : bool then ret tt
    else
      let! _ := uninstall release local_install_dir in
      proceed
  else proceed.

(** [main], lines 745-813. *)
Definition main (bundle_type build_type : string) (release : option string)
    (knime download_only : bool) (download_dest install_dest : option string)
    (token_path : string) : M unit :=
  let! release :=
    (if negb (truthy release) then get_current_release token_path else ret release) in
  match release with
  | None => raise TypeError          (* '/'.join over False, line 434 *)
  | Some release =>
      let! found := get_build_info release build_type bundle_type knime in
      let '(latest_build, bundle_name) := found in
      match bundle_name with
      | None => raise TypeError      (* '/'.join over None, line 761 *)
      | Some bundle_name =>
          let download_url :=
            join "/" [BASE_URL; build_type; release; latest_build; bundle_name] in
          let user_down_dir := os_path_join E (expanduser_home E) "Downloads" in
          let! dirs :=
            (if startswith E "win32" then
               match getenv_userprofile E with
               | None => raise TypeError
               | Some profile =>
                   ret (os_path_join E profile "Downloads",
                        Some ("C:" ++ backslash ++ "Program Files" ++ backslash
                              ++ "Schrodinger" ++ release))
               end
             else if startswith E "darwin" then
               ret (user_down_dir, Some ("/opt/schrodinger/LBI/suites" ++ release))
             else if startswith E "linux" then
               ret (user_down_dir, Some ("/scr/LBI/suites" ++ release))
             else ret (user_down_dir, None)) in
          let '(user_down_dir, local_install_dir) := dirs in
          let bundle_path := os_path_join E user_down_dir bundle_name in
          let local_install_dir :=
            if truthy install_dest
            then option_map (fun d => os_path_join E d ("suites" ++ release)) install_dest
            else local_install_dir in
          let bundle_path :=
            if truthy download_dest
            then match download_dest with
                 | Some d => os_path_join E d bundle_name
                 | None => bundle_path
                 end
            else bundle_path in
          match local_install_dir with
          | None => raise UnboundLocalError     (* local_install_dir, line 786 *)
          | Some local_install_dir =>
              main_install build_type release latest_build download_url
                bundle_path local_install_dir download_only
          end
      end
  end.

End WithEnv.

End Installer.

(** ** [get_release.py] *)

Module GetRelease.
Import OS.

Section WithEnv.
Context (E : env).

(** [get_current_release], lines 8-73; [logger] is not defined in this
    script. *)
Definition get_current_release : M unit :=
  let token_path :=
    os_path_join E (expanduser_home E) ".custom_commands/get_release/token.pickle" in
  let! c := Installer.obtain_creds E token_path in
  let! items := Installer.release_targets E c in
  let! first := lift (of_option IndexError (nth_error items 0)) in
  let! title := lift (of_option KeyError (summary first)) in
  let current_release := slice title 0 4 in
  if Nat.eqb (List.length items) 0 then raise NameError
  else emit (EvPrint current_release).

End WithEnv.

End GetRelease.

(** ** [parse_args] of [build_installer.py]: the checks after [argparse] *)

Module Args.
Import OS.

(** The [argparse.Namespace] that [parser.parse_args()] returns. *)
Record namespace : Type := mkNamespace {
  bundle_type : string;
  build_type : string;
  download_destination : option string;
  install_destination : option string;
  download_only : bool;
  release : option string;
  knime : bool;
  token_path : string
}.

(** [parser.error(message)] ends the run; otherwise the arguments are
    returned. *)
Inductive outcome (A : Type) : Type :=
  | Accepted (args : A)
  | ParserError (message : string).
Arguments Accepted {A} args.
Arguments ParserError {A} message.

(** What [$] accepts: the end of the string, or one newline before it. *)
Definition at_end (s : string) : bool :=
  String.eqb s EmptyString || String.eqb s (String (ascii_of_nat 10) EmptyString).

(** [re.search('^[2][0-9]-[1-4]$', s)] *)
Definition release_ok (s : string) : bool :=
  match s with
  | String a (String b (String c (String d rest))) =>
      Ascii.eqb a "2" && is_digit b && Ascii.eqb c "-"
      && ((49 <=? code d)%Z && (code d <=? 52)%Z) && at_end rest
  | _ => false
  end.

(** [re.search('^[0-9][0-9][0-9]$', s)] *)
Definition build_id_ok (s : string) : bool :=
  match s with
  | String a (String b (String c rest)) =>
      is_digit a && is_digit b && is_digit c && at_end rest
  | _ => false
  end.

(** Lines 186-217 of [parse_args]. *)
Definition check (E : env) (w : world) (args : namespace) : outcome namespace :=
  if truthy (download_destination args)
     && negb (match download_destination args with
              | Some d => exists_ d w
              | None => false
              end)
  then ParserError
         "The download destination given doesn't seem to exist. Please give a pre-existing path"
  else if download_only args && truthy (install_destination args)
  then ParserError
         "-i and -d cannot be passed simultaneously, perhaps you meant -c instead of -d?"
  else if startswith E "win32" && truthy (install_destination args)
  then ParserError "-i option is not available for Windows"
  else
    let checked :=
      if truthy (release args) then
        match release args with
        | Some r =>
            if negb (release_ok r) then ParserError "Incorrect release given"
            else Accepted (Some ("20" ++ r))
        | None => Accepted None
        end
      else Accepted (release args) in
    match checked with
    | ParserError m => ParserError m
    | Accepted release' =>
        if knime args
           && (String.eqb (bundle_type args) "desres"
               || String.eqb (bundle_type args) "academic")
        then ParserError "-knime can only be passed when bundle_type is general or advanced"
        else if knime args && negb (startswith E "darwin")
        then ParserError "Incompatible platform, please remove the -knime option"
        else Accepted (mkNamespace (bundle_type args) (build_type args)
                         (download_destination args) (install_destination args)
                         (download_only args) release' (knime args) (token_path args))
    end.

End Args.

(** ** [download_tester.py] *)

Module Tester.
Import OS.

(** [get_bundle_name], lines 159-190. *)
Definition get_bundle_name (bundle_type platform release : string) : string :=
  let prefix := if String.eqb bundle_type "academic" then "Maestro" else "Schrodinger_Suites" in
  let midfix :=
    if String.eqb bundle_type "academic" then EmptyString
    else if String.eqb bundle_type "advanced" then "_Advanced" else EmptyString in
  let suffix := if String.eqb bundle_type "academic" then "_Academic" else EmptyString in
  let ext :=
    if String.eqb platform "Linux-x86_64" then ".tar"
    else if String.eqb platform "Windows-x64" then ".zip"
    else ".dmg" in
  prefix ++ "_20" ++ release ++ midfix ++ "_" ++ platform ++ suffix ++ ext.

(** [download_files_builder], lines 135-156. *)
Definition download_files_builder (bundle_type release : string) : list string :=
  let download_files :=
    List.map (fun platform => get_bundle_name bundle_type platform release)
      ["Linux-x86_64"; "Windows-x64"; "MacOSX"] in
  if negb (String.eqb bundle_type "academic")
  then (download_files ++ [get_bundle_name bundle_type "KNIME_MacOSX" release])%list
  else download_files.

Section WithEnv.
Context (E : env).

(** [get_ref_checksum], lines 193-206. *)
Definition get_ref_checksum (release build_id bundle : string) : M string :=
  let url :=
    "http://build-download.schrodinger.com/NB/20" ++ release ++ "/build-" ++ build_id
    ++ "/" ++ bundle ++ ".md5" in
  let! resp := get E url in
  let! _ := raise_for_status resp in
  ret (body_text resp).

(** [remove_installers], lines 249-262. *)
Fixpoint remove_installers (download_dir : string) (files_to_remove : list string) : M unit :=
  match files_to_remove with
  | [] => ret tt
  | fname :: rest =>
      let file_to_delete := os_path_join E download_dir fname in
      let! there := (fun w => (w, Ok (isfile file_to_delete w))) in
      let! _ := (if there : bool then remove file_to_delete else ret tt) in
      remove_installers download_dir rest
  end.

End WithEnv.

(** The arguments of the tester, and lines 90-105 of its [parse_args]. *)
Record namespace : Type := mkNamespace {
  bundle_type : string;
  release : string;
  build_id : option string;
  manual : bool
}.

Definition check (args : namespace) : Args.outcome namespace :=
  if negb (Args.release_ok (release args)) then Args.ParserError "Incorrect release given"
  else if negb (truthy (build_id args)) && negb (manual args)
  then Args.ParserError "Missing one of the following arguments: -build_id, -manual"
  else if truthy (build_id args) && manual args
  then Args.ParserError
         "You can only supply one of the following arguments: -build_id, -manual"
  else if truthy (build_id args)
          && negb (match build_id args with
                   | Some b => Args.build_id_ok b
                   | None => false
                   end)
  then Args.ParserError "Improper build format given"
  else Args.Accepted args.

End Tester.

(** ** [posixpath], for the environments of the examples *)

Module Posix.

(** [posixpath.join(a, b)] *)
Definition join (a b : string) : string :=
  if String.prefix "/" b then b
  else if String.eqb a EmptyString || endswith "/" a then a ++ b
  else a ++ "/" ++ b.

(** [posixpath.basename(p)] *)
Definition basename (p : string) : string := List.last (split_char "/" p) EmptyString.

(** [posixpath.splitext(p)]: the extension starts at the last dot of the
    base name, unless only dots precede it. *)
Definition splitext (p : string) : string * string :=
  let name := basename p in
  let ext_rev := take_while (fun c => negb (Ascii.eqb c ".")) (srev name) in
  let n_ext := String.length ext_rev in
  if Nat.ltb n_ext (String.length name) then
    let stem := String.substring 0 (String.length name - n_ext - 1) name in
    match drop_while (fun c => Ascii.eqb c ".") stem with
    | EmptyString => (p, EmptyString)
    | _ =>
        (String.substring 0 (String.length p - n_ext - 1) p,
         String.substring (String.length p - n_ext - 1) (n_ext + 1) p)
    end
  else (p, EmptyString).

End Posix.

(** ** The notions of the specification *)

Module Spec.
Import OS.

(** A response that [raise_for_status] lets through, and one that it
    turns into an [HTTPError]. *)
Definition fetchable (resp : response) : Prop :=
  (status_code resp < 400)%Z \/ (600 <= status_code resp)%Z.
Definition http_error (resp : response) : Prop :=
  (400 <= status_code resp < 600)%Z.

(** The numeric suffix of a build id, as the locator reads it. *)
Definition suffix (build : string) : result Z := int (slice build 6 9).

Definition suffix_of (build : string) : Z :=
  match suffix build with
  | Ok n => n
  | Raise _ => 0
  end.

Definition numbered (build : string) : Prop := exists n, suffix build = Ok n.

Definition older (a b : string) : Prop := (suffix_of a < suffix_of b)%Z.
Definition newer (a b : string) : Prop := older b a.

(** Strictly descending, and strictly ascending, by numeric suffix. *)
Definition descending (l : list string) : Prop := StronglySorted newer l.
Definition ascending (l : list string) : Prop := StronglySorted older l.

(** A build id of the shape [build-NNN]. *)
Definition build_id (d1 d2 d3 : ascii) : string :=
  "build-" ++ String d1 (String d2 (String d3 EmptyString)).

(** The requests that a run has issued, in order. *)
Fixpoint requested (tr : list event) : list string :=
  match tr with
  | [] => []
  | EvGet url :: r => url :: requested r
  | _ :: r => requested r
  end.

(** The listing of a release in the catalog, and the page of a build. *)
Definition listing_url (build_type release : string) : string :=
  join "/" [Installer.BASE_URL; build_type; release].
Definition build_url (build_type release build : string) : string :=
  join "/" [Installer.BASE_URL; build_type; release; build].

(** The three states of a local installation (section 4.4): no
    directory at the path; a directory whose manifest holds the display
    form of the wanted build; a directory whose manifest does not.  The
    state is undefined when the manifest cannot be read or the build id
    has no display form. *)
Inductive install_state : Type := Absent | UpToDate | Stale.

Definition classify (E : env) (w : world) (path build : string) : option install_state :=
  if negb (isdir path w) then Some Absent
  else
    match fs w !! os_path_join E path "version.txt", Installer.format_buildID build with
    | Some (File manifest), Ok display =>
        if contains display manifest then Some UpToDate else Some Stale
    | _, _ => None
    end.

(** A string of ASCII characters.  On these the case mappings, [int]
    and the character classes of the embedding are those of Python. *)
Fixpoint is_ascii (s : string) : bool :=
  match s with
  | EmptyString => true
  | String c r => (code c <? 128)%Z && is_ascii r
  end.

(** A plain file name: letters, digits, [_], [-] and [.], beginning with
    a letter, a digit or [_]. *)
Definition plain_name (name : string) : bool :=
  match name with
  | EmptyString => false
  | String c r =>
      is_word c
      && String.eqb
           (drop_while (fun c => is_word c || Ascii.eqb c "." || Ascii.eqb c "-") r)
           EmptyString
  end.

(** [target] names a file directly inside a directory of [w]: a plain
    name after a directory that exists, with the separator of the
    platform in between.  These are the paths at which [open(target,
    'wb')] finds the directory that it writes into. *)
Definition inside_directory (E : env) (w : world) (target : string) : Prop :=
  exists dir name,
    (target = dir ++ "/" ++ name
     \/ (startswith E "win32" = true /\ target = dir ++ backslash ++ name))
    /\ isdir dir w = true
    /\ plain_name name = true.

(** A computation that only adds to the record of what was done. *)
Definition grows {A} (m : M A) : Prop :=
  forall w, exists evs, trace (fst (m w)) = (trace w ++ evs)%list.

End Spec.

(** ** Sample catalogs and environments *)

Module Demo.

Definition nl : string := String Installer.newline EmptyString.

(** A listing page: a navigation list, then the list of the builds. *)
Definition listing_page (builds : list string) : list Soup.node :=
  [Soup.Tag "h1" [] [Soup.Text "Builds"];
   Soup.Tag "ul" [] [Soup.Tag "li" [] [Soup.Text "Home"]];
   Soup.Tag "ul" []
     (Soup.Text nl ::
      List.concat
        (List.map (fun b => [Soup.Tag "li" []
                               [Soup.Tag "a" [("href", b ++ "/")] [Soup.Text b]];
                             Soup.Text nl]) builds))].

(** A build page: one section per header, each a list of links given by
    their text and target. *)
Definition links (ls : list (string * string)) : Soup.node :=
  Soup.Tag "ul" []
    (List.map (fun l => Soup.Tag "li" []
                          [Soup.Tag "a" [("href", snd l)] [Soup.Text (fst l)]]) ls).

Definition build_page (sections : list (string * list (string * string)))
  : list Soup.node :=
  List.concat
    (List.map (fun s => [Soup.Tag "h3" [] [Soup.Text (fst s ++ " Installers")];
                         Soup.Text nl;
                         links (snd s)]) sections).

Definition page (status : Z) (p : list Soup.node) : response :=
  mkResponse status None p [] EmptyString.

Fixpoint lookup_url {A} (url : string) (web : list (string * A)) : option A :=
  match web with
  | [] => None
  | (u, r) :: rest => if String.eqb u url then Some r else lookup_url url rest
  end.

(** An environment on [platform] whose web is the table [web] (any other
    address answers 404), whose processes behave as [procs] says and
    leave the file system alone, with [posixpath] for the paths. *)
Definition demo_env (platform : string) (web : list (string * response))
    (procs : list string -> result (Z * string))
    (calendar : list cal_event) : env :=
  {| sys_platform := platform;
     requests_get := fun _ url =>
       match lookup_url url web with
       | Some r => Ok r
       | None => Ok (page 404 [])
       end;
     requests_post := fun _ _ _ => Ok (page 200 []);
     run_process := fun cmd _ w => (fs w, procs cmd);
     os_path_join := Posix.join;
     os_path_basename := Posix.basename;
     os_path_splitext := Posix.splitext;
     os_path_abspath := fun p => p;
     expanduser_home := "/home/user";
     getenv_userprofile := None;
     getcwd := "/home/user";
     os_listdir := fun _ _ => Ok [];
     shutil_move := fun _ _ w => (fs w, Ok tt);
     zip_extractall := fun _ _ w => (fs w, Ok tt);
     tar_extractall := fun _ _ w => (fs w, Ok tt);
     strftime_ymd := fun _ => "2024-05-01";
     pickle_load := fun _ => Ok (mkCreds true false false);
     pickle_dump := fun _ => "token";
     creds_refresh := fun c w => (fs w, Ok c);
     run_local_server := fun w => (fs w, Ok (mkCreds true false false));
     calendar_list := fun _ _ _ _ => Ok calendar |}.

(** A catalog for release 2024-2 of the official builds: the listing of
    the given builds and the page of each. *)
Definition catalog (builds : list (string * list Soup.node)) : list (string * response) :=
  (Spec.listing_url "OB" "2024-2", page 200 (listing_page (List.map fst builds)))
  :: List.map (fun b => (Spec.build_url "OB" "2024-2" (fst b), page 200 (snd b))) builds.

Definition general_only : list Soup.node :=
  build_page
    [("General", [("Linux-x86_64", "/OB/2024-2/Suite_2024-2_General_Linux-x86_64.tar")])].

Definition all_bundles : list Soup.node :=
  build_page
    [("Academic", [("Linux-x86_64", "/OB/2024-2/Suite_2024-2_Academic_Linux-x86_64.tar");
                   ("MacOSX", "/OB/2024-2/Suite_2024-2_Academic_MacOSX.dmg")]);
     ("General", [("MacOSX with KNIME", "/OB/2024-2/Suite_2024-2_General_MacOSX_KNIME.dmg");
                  ("MacOSX", "/OB/2024-2/Suite_2024-2_General_MacOSX.dmg");
                  ("Linux-x86_64", "/OB/2024-2/Suite_2024-2_General_Linux-x86_64.tar")]);
     ("Advanced", [("MacOSX", "/OB/2024-2/Suite_2024-2_Advanced_MacOSX.dmg")])].

Definition w0 : world := mkWorld ∅ [] 0.

(** A world with release 2024-2 installed at build 49. *)
Definition installed_049 : world :=
  mkWorld {[ "/scr/LBI/suites2024-2" := Dir;
             "/scr/LBI/suites2024-2/version.txt" := File "Schrodinger Suite 2024-2, Build 49";
             "/scr/LBI/suites2024-2/maestro" := File "binary" ]} [] 0.

Definition no_process (cmd : list string) : result (Z * string) := Ok (0%Z, EmptyString).

(** [hdiutil] works and reports a mount point; [xar] fails. *)
Definition attach_output : string :=
  "/dev/disk4s1  Apple_HFS  /Volumes/dmg.a1B2" ++ nl.

Definition failing_xar (cmd : list string) : result (Z * string) :=
  match cmd with
  | "hdiutil" :: "attach" :: _ => Ok (0%Z, attach_output)
  | "xar" :: _ => Ok (1%Z, EmptyString)
  | _ => Ok (0%Z, EmptyString)
  end.

(** A response that carries a file. *)
Definition payload (length : option string) (body : list string) : response :=
  mkResponse 200 length [] body EmptyString.

(** A world with an old installer in the download directory. *)
Definition old_download : world :=
  mkWorld {[ "/dl/Suite.tar" := File "old bytes"; "/dl/notes.txt" := File "keep" ]} [] 0.

(** The same inside a download directory that is part of the world. *)
Definition download_dir : world :=
  mkWorld {[ "/dl" := Dir; "/dl/Suite.tar" := File "old bytes";
             "/dl/notes.txt" := File "keep" ]} [] 0.


(** [hdiutil] fails, or answers without a mount point. *)
Definition failing_attach (cmd : list string) : result (Z * string) :=
  match cmd with
  | "hdiutil" :: "attach" :: _ => Ok (1%Z, "hdiutil: attach failed")
  | _ => Ok (0%Z, EmptyString)
  end.

Definition silent_attach (cmd : list string) : result (Z * string) :=
  match cmd with
  | "hdiutil" :: "attach" :: _ => Ok (0%Z, "/dev/disk4s1  Apple_HFS  /Volumes/Suite")
  | _ => Ok (0%Z, EmptyString)
  end.

(** An environment like [demo_env] on Linux, in which the archive
    unpacks into its sub-directory and [shutil.move] moves a regular
    file into a directory. *)
Definition unpacking_env (web : list (string * response)) : env :=
  let E := demo_env "linux" web no_process [] in
  {| sys_platform := sys_platform E;
     requests_get := requests_get E;
     requests_post := fun _ _ _ => Ok (mkResponse 200 None [] [] "localhost: schrodinger");
     run_process := run_process E;
     os_path_join := os_path_join E;
     os_path_basename := os_path_basename E;
     os_path_splitext := os_path_splitext E;
     os_path_abspath := os_path_abspath E;
     expanduser_home := expanduser_home E;
     getenv_userprofile := getenv_userprofile E;
     getcwd := getcwd E;
     os_listdir := os_listdir E;
     shutil_move := fun src dst w =>
       match fs w !! src, fs w !! dst with
       | Some (File c), Some Dir =>
           (<[Posix.join dst (Posix.basename src) := File c]> (delete src (fs w)), Ok tt)
       | _, _ => (fs w, Raise FileNotFoundError)
       end;
     zip_extractall := zip_extractall E;
     tar_extractall := fun bundle dst w =>
       (<[Posix.join dst (fst (Posix.splitext (Posix.basename bundle))) := Dir]> (fs w), Ok tt);
     strftime_ymd := strftime_ymd E;
     pickle_load := pickle_load E;
     pickle_dump := pickle_dump E;
     creds_refresh := creds_refresh E;
     run_local_server := run_local_server E;
     calendar_list := calendar_list E |}.

(** A page whose Academic section lists the DESRES installers beside the
    academic ones. *)
Definition desres_page : list Soup.node :=
  build_page
    [("Academic", [("Linux-x86_64", "/NB/2024-2/Maestro_2024-2_Linux-x86_64_Academic.tar");
                   ("DESRES Windows-x64", "/NB/2024-2/Desmond_2024-2_Windows-x64_DESRES.zip");
                   ("DESRES Linux-x86_64", "/NB/2024-2/Desmond_2024-2_Linux-x86_64_DESRES.tar")])].

(** A page whose General header is the last element of its parent. *)
Definition header_only_page : list Soup.node :=
  [Soup.Tag "div" [] [Soup.Tag "h3" [] [Soup.Text "General Installers"]; Soup.Text nl];
   links [("Linux-x86_64", "/OB/2024-2/Suite_2024-2_General_Linux-x86_64.tar")]].

End Demo.

(** * Properties *)

Example posix_ex :
  Posix.splitext "/dl/Suite_2024-2.tar.gz" = ("/dl/Suite_2024-2.tar", ".gz")
  /\ Posix.splitext "/dl/.bashrc" = ("/dl/.bashrc", EmptyString)
  /\ Posix.join "/Volumes/dmg.x1" "Suite.pkg" = "/Volumes/dmg.x1/Suite.pkg".
Proof. repeat split; reflexivity. Qed.

Example int_ex :
  List.map int [" 12 "; "1_0"; "-00"; "007"; "_1"; "1__0"; "+"; "12a"; "1 2"]
  = [Ok 12%Z; Ok 10%Z; Ok 0%Z; Ok 7%Z; Raise ValueError; Raise ValueError;
     Raise ValueError; Raise ValueError; Raise ValueError].
Proof. reflexivity. Qed.

Example strip_split_ex :
  strip "  build-003 " = "build-003"
  /\ split_char "/" "a/b//c" = ["a"; "b"; EmptyString; "c"]
  /\ capitalize "desRES" = "Desres"
  /\ contains "build" "xbuild-1" = true /\ contains "build" "buil" = false.
Proof. repeat split; reflexivity. Qed.

Example search_ex :
  search_lit_word "/Volumes/dmg." "/dev/disk4 /Volumes/dmg. /Volumes/dmg.a_1-x"
  = Some "/Volumes/dmg.a_1"
  /\ search_lit_word "/Volumes/dmg." "/Volumes/Suite" = None.
Proof. split; reflexivity. Qed.

Example format_buildID_ex :
  List.map Installer.format_buildID ["build-142"; "build-042"; "build-003"; "build"; "build-x42"]
  = [Ok "Build 142"; Ok "Build 42"; Ok "Build 03"; Raise IndexError; Raise ValueError].
Proof. reflexivity. Qed.

Example listing_ex :
  Installer.parse_builds (Demo.listing_page ["build-002"; "build-005"; "build-001"])
  = Ok ["build-002"; "build-005"; "build-001"].
Proof. vm_compute. reflexivity. Qed.

Example bundle_ex :
  Installer.bundle_name_in
    (Demo.build_page [("General", [("MacOSX KNIME", "/OB/x/Suite_KNIME.dmg"); ("MacOSX", "/OB/x/Suite.dmg"); ("Linux", "/OB/x/Suite.tar")])])
    "general" "MacOSX" false = Ok (Some "Suite.dmg").
Proof. vm_compute. reflexivity. Qed.

(** ** The monad *)

Lemma bind_ok {A B} (m : M A) (k : A -> M B) (w w' : world) (a : A) :
  m w = (w', Ok a) -> bind m k w = k a w'.
Proof. intros H. unfold bind. rewrite H. reflexivity. Qed.

Lemma bind_raise {A B} (m : M A) (k : A -> M B) (w w' : world) (e : exn) :
  m w = (w', Raise e) -> bind m k w = (w', Raise e).
Proof. intros H. unfold bind. rewrite H. reflexivity. Qed.

Lemma subprocess_run_eq (E : env) (cmd : list string) (cwd : option string) (w : world) :
  OS.subprocess_run E cmd cwd w
  = (set_fs (fst (run_process E cmd cwd (log (EvRun cmd cwd) w))) (log (EvRun cmd cwd) w),
     snd (run_process E cmd cwd (log (EvRun cmd cwd) w))).
Proof. reflexivity. Qed.

Lemma check_output_ok (E : env) (cmd : list string) (w : world)
    (fs1 : gmap string entry) (output : string) :
  run_process E cmd None (log (EvRun cmd None) w) = (fs1, Ok (0%Z, output)) ->
  OS.check_output E cmd w = (set_fs fs1 (log (EvRun cmd None) w), Ok output).
Proof.
  intros H. unfold OS.check_output.
  rewrite (bind_ok _ _ w (set_fs fs1 (log (EvRun cmd None) w)) (0%Z, output)).
  - reflexivity.
  - rewrite subprocess_run_eq, H. reflexivity.
Qed.

(** ** Display form of a build id *)

Lemma digit_cases (c : ascii) :
  is_digit c = true ->
  In c ["0"; "1"; "2"; "3"; "4"; "5"; "6"; "7"; "8"; "9"]%char.
Proof.
  destruct c as [[] [] [] [] [] [] [] []]; vm_compute; intros H;
    try discriminate H; tauto.
Qed.

(** C3, as the code has it: for a build id [build-NNN], the display form
    is [Build NNN] with the first digit left out when it is a zero, and
    only that digit: one leading zero is stripped, a second one stays. *)
Theorem format_buildID_strips_one_zero (d1 d2 d3 : ascii) :
  is_digit d1 = true -> is_digit d2 = true -> is_digit d3 = true ->
  Installer.format_buildID (Spec.build_id d1 d2 d3) =
  Ok (if Ascii.eqb d1 "0"
      then "Build " ++ String d2 (String d3 EmptyString)
      else "Build " ++ String d1 (String d2 (String d3 EmptyString))).
Proof.
  intros H1 H2 H3.
  apply digit_cases in H1, H2, H3. simpl In in *.
  repeat match goal with
         | H : _ \/ _ |- _ => destruct H as [H | H]
         | H : False |- _ => destruct H
         | H : _ = _ |- _ => subst
         end; vm_compute; reflexivity.
Qed.

Lemma format_buildID_strips_one_zero_witness :
  Installer.format_buildID (Spec.build_id "0" "4" "2") = Ok "Build 42"
  /\ Installer.format_buildID (Spec.build_id "1" "4" "2") = Ok "Build 142".
Proof.
  split.
  - apply (format_buildID_strips_one_zero "0" "4" "2"); reflexivity.
  - apply (format_buildID_strips_one_zero "1" "4" "2"); reflexivity.
Defined.

(** C3 fails as stated: [build-003] is rendered [Build 03], not
    [Build 3]. *)
Lemma format_buildID_build_003 :
  Installer.format_buildID "build-003" = Ok "Build 03"
  /\ Installer.format_buildID "build-003" <> Ok "Build 3".
Proof. split; [reflexivity | discriminate]. Qed.

(** ** The bundle resolver *)

Section Resolver.
Context (E : env).
Implicit Types (release build_type build_page bundle_type platform : string).
Implicit Types (knime : bool) (w : world) (resp : response).

Lemma raise_for_status_ok resp w :
  Spec.fetchable resp -> OS.raise_for_status resp w = (w, Ok tt).
Proof.
  intros H. unfold OS.raise_for_status.
  destruct (400 <=? status_code resp)%Z eqn:Ha;
    destruct (status_code resp <? 600)%Z eqn:Hb; try reflexivity.
  apply Z.leb_le in Ha. apply Z.ltb_lt in Hb. unfold Spec.fetchable in H. lia.
Qed.

(** On a page that can be fetched, the resolver is its pure part. *)
Lemma get_bundle_name_fetched release build_type build_page bundle_type platform knime w resp :
  requests_get E w (Spec.build_url build_type release build_page) = Ok resp ->
  Spec.fetchable resp ->
  Installer.get_bundle_name E release build_type build_page bundle_type platform knime w
  = (log (EvGet (Spec.build_url build_type release build_page)) w,
     Installer.bundle_name_in (parsed resp) bundle_type platform knime).
Proof.
  intros Hget Hst.
  unfold Installer.get_bundle_name, bind, OS.get, lift.
  fold (Spec.build_url build_type release build_page).
  rewrite Hget. rewrite raise_for_status_ok by assumption. reflexivity.
Qed.

(** C6: for a build whose page can be fetched, the resolver returns
    [None], and raises nothing, when no [h3] header matches the bundle
    type, and when the section is there and no link in it matches the
    filter (the platform, or the [DESRES] marker for [desres]). *)
Theorem get_bundle_name_none release build_type build_page bundle_type platform knime w resp :
  requests_get E w (Spec.build_url build_type release build_page) = Ok resp ->
  Spec.fetchable resp ->
  (Soup.find "h3" (Installer.header_of bundle_type ++ " Installers") (parsed resp) = None
   \/ exists header section,
        Soup.find "h3" (Installer.header_of bundle_type ++ " Installers") (parsed resp)
          = Some header
        /\ Soup.find_next_sibling header = Some section
        /\ Installer.matching_links (Installer.filter_of bundle_type platform) section = []) ->
  Installer.get_bundle_name E release build_type build_page bundle_type platform knime w
  = (log (EvGet (Spec.build_url build_type release build_page)) w, Ok None).
Proof.
  intros Hget Hst Hpage.
  rewrite (get_bundle_name_fetched _ _ _ _ _ _ _ _ Hget Hst). f_equal.
  unfold Installer.bundle_name_in.
  destruct Hpage as [Hnone | (header & section & Hh & Hs & Hl)].
  - rewrite Hnone. reflexivity.
  - rewrite Hh, Hs, Hl. reflexivity.
Qed.

(** C7: on MacOSX, without the optional component, for a bundle type
    other than [academic], with two or more matching links, the resolver
    returns the file name of the second matching link: the last segment
    of its [href]. *)
Theorem get_bundle_name_second_link release build_type build_page bundle_type knime w resp
    header section first second rest :
  requests_get E w (Spec.build_url build_type release build_page) = Ok resp ->
  Spec.fetchable resp ->
  knime = false ->
  bundle_type <> "academic" ->
  Soup.find "h3" (Installer.header_of bundle_type ++ " Installers") (parsed resp)
    = Some header ->
  Soup.find_next_sibling header = Some section ->
  Installer.matching_links (Installer.filter_of bundle_type "MacOSX") section
    = first :: second :: rest ->
  Installer.get_bundle_name E release build_type build_page bundle_type "MacOSX" knime w
  = (log (EvGet (Spec.build_url build_type release build_page)) w,
     let* file := Installer.installer_file_of second in Ok (Some file))
  /\ forall href,
       Soup.getitem (fst second) "href" = Ok href ->
       Installer.get_bundle_name E release build_type build_page bundle_type "MacOSX" knime w
       = (log (EvGet (Spec.build_url build_type release build_page)) w,
          Ok (Some (List.last (split_char "/" href) EmptyString))).
Proof.
  intros Hget Hst -> Hty Hh Hs Hl.
  rewrite (get_bundle_name_fetched _ _ _ _ _ _ _ _ Hget Hst).
  assert (Hpure : Installer.bundle_name_in (parsed resp) bundle_type "MacOSX" false
                  = let* file := Installer.installer_file_of second in Ok (Some file)).
  { unfold Installer.bundle_name_in. rewrite Hh, Hs, Hl.
    apply String.eqb_neq in Hty. rewrite Hty. reflexivity. }
  rewrite Hpure. split; [reflexivity |].
  intros href Hhref. unfold Installer.installer_file_of. rewrite Hhref. reflexivity.
Qed.

(** C9: on MacOSX, without the optional component, for a bundle type
    other than [academic], when exactly one link matches, taking the
    second element raises [IndexError]; the link is not returned, nor
    [None]. *)
Theorem get_bundle_name_single_link_raises release build_type build_page bundle_type knime w resp
    header section only :
  requests_get E w (Spec.build_url build_type release build_page) = Ok resp ->
  Spec.fetchable resp ->
  knime = false ->
  bundle_type <> "academic" ->
  Soup.find "h3" (Installer.header_of bundle_type ++ " Installers") (parsed resp)
    = Some header ->
  Soup.find_next_sibling header = Some section ->
  Installer.matching_links (Installer.filter_of bundle_type "MacOSX") section = [only] ->
  Installer.get_bundle_name E release build_type build_page bundle_type "MacOSX" knime w
  = (log (EvGet (Spec.build_url build_type release build_page)) w, Raise IndexError).
Proof.
  intros Hget Hst -> Hty Hh Hs Hl.
  rewrite (get_bundle_name_fetched _ _ _ _ _ _ _ _ Hget Hst). f_equal.
  unfold Installer.bundle_name_in. rewrite Hh, Hs, Hl.
  apply String.eqb_neq in Hty. rewrite Hty. reflexivity.
Qed.

End Resolver.

Lemma get_bundle_name_none_witness :
  let E := Demo.demo_env "linux" (Demo.catalog [("build-050", Demo.general_only)])
             Demo.no_process [] in
  Installer.get_bundle_name E "2024-2" "OB" "build-050" "academic" "Linux" false Demo.w0
  = (log (EvGet (Spec.build_url "OB" "2024-2" "build-050")) Demo.w0, Ok None)
  /\ Installer.get_bundle_name E "2024-2" "OB" "build-050" "general" "MacOSX" false Demo.w0
  = (log (EvGet (Spec.build_url "OB" "2024-2" "build-050")) Demo.w0, Ok None).
Proof.
  intros E. split.
  - apply (get_bundle_name_none E "2024-2" "OB" "build-050" "academic" "Linux" false
             Demo.w0 (Demo.page 200 Demo.general_only)).
    + reflexivity.
    + left. reflexivity.
    + left. reflexivity.
  - apply (get_bundle_name_none E "2024-2" "OB" "build-050" "general" "MacOSX" false
             Demo.w0 (Demo.page 200 Demo.general_only)).
    + reflexivity.
    + left. reflexivity.
    + right. eexists _, _. repeat split; reflexivity.
Defined.

Lemma get_bundle_name_second_link_witness :
  let E := Demo.demo_env "darwin" (Demo.catalog [("build-049", Demo.all_bundles)])
             Demo.no_process [] in
  Installer.get_bundle_name E "2024-2" "OB" "build-049" "general" "MacOSX" false Demo.w0
  = (log (EvGet (Spec.build_url "OB" "2024-2" "build-049")) Demo.w0,
     Ok (Some "Suite_2024-2_General_MacOSX.dmg")).
Proof.
  intros E.
  refine (proj2 (get_bundle_name_second_link E "2024-2" "OB" "build-049" "general" false
             Demo.w0 (Demo.page 200 Demo.all_bundles) _ _ _ _ _ _ _ _ _ _ _ _)
            "/OB/2024-2/Suite_2024-2_General_MacOSX.dmg" _).
  - reflexivity.
  - left. reflexivity.
  - reflexivity.
  - discriminate.
  - reflexivity.
  - reflexivity.
  - reflexivity.
  - reflexivity.
Defined.

Lemma get_bundle_name_single_link_raises_witness :
  let E := Demo.demo_env "darwin" (Demo.catalog [("build-049", Demo.all_bundles)])
             Demo.no_process [] in
  Installer.get_bundle_name E "2024-2" "OB" "build-049" "advanced" "MacOSX" false Demo.w0
  = (log (EvGet (Spec.build_url "OB" "2024-2" "build-049")) Demo.w0, Raise IndexError).
Proof.
  intros E.
  refine (get_bundle_name_single_link_raises E "2024-2" "OB" "build-049" "advanced" false
            Demo.w0 (Demo.page 200 Demo.all_bundles) _ _ _ _ _ _ _ _ _ _).
  - reflexivity.
  - left. reflexivity.
  - reflexivity.
  - discriminate.
  - reflexivity.
  - reflexivity.
  - reflexivity.
Defined.

(** ** The download stage *)

Section Download.
Context (E : env).

(** C10: a file already at the target is deleted before the request is
    issued; when the response has an error status the call raises
    [HTTPError] with the old file gone and nothing written in its place. *)
Theorem download_file_error_loses_target (url target old : string) (w : world) (resp : response) :
  fs w !! target = Some (File old) ->
  requests_get E (log (EvRemove target) (set_fs (delete target (fs w)) w)) url = Ok resp ->
  Spec.http_error resp ->
  Installer.download_file E url target w
  = (mkWorld (delete target (fs w)) (trace w ++ [EvRemove target; EvGet url]) (clock w),
     Raise HTTPError)
  /\ fs (fst (Installer.download_file E url target w)) !! target = None.
Proof.
  intros Hold Hget [Hlo Hhi].
  assert (Heq : Installer.download_file E url target w
    = (mkWorld (delete target (fs w)) (trace w ++ [EvRemove target; EvGet url]) (clock w),
       Raise HTTPError)).
  { unfold Installer.download_file, bind at 1 2, OS.exists_. rewrite Hold.
    unfold OS.remove at 1. rewrite Hold.
    unfold bind at 1, OS.get. rewrite Hget.
    unfold bind, OS.raise_for_status.
    apply Z.leb_le in Hlo. apply Z.ltb_lt in Hhi. rewrite Hlo, Hhi. simpl.
    unfold raise, log, set_fs. simpl. rewrite <- app_assoc. reflexivity. }
  split; [exact Heq |].
  rewrite Heq. simpl. apply lookup_delete_eq.
Qed.

End Download.

Lemma download_file_error_loses_target_witness :
  let E := Demo.demo_env "linux" [] Demo.no_process [] in
  let w := mkWorld {[ "/dl/Suite.tar" := File "old bytes" ]} [] 0 in
  fs (fst (Installer.download_file E "http://host/Suite.tar" "/dl/Suite.tar" w))
    !! "/dl/Suite.tar" = None.
Proof.
  intros E w.
  refine (proj2 (download_file_error_loses_target E "http://host/Suite.tar" "/dl/Suite.tar"
                   "old bytes" w (Demo.page 404 []) _ _ _)).
  - reflexivity.
  - reflexivity.
  - split; [discriminate | reflexivity].
Defined.

(** ** The release oracle *)

Section Oracle.
Context (E : env).

(** C5, as the code has it: with valid credentials, when the calendar
    has no release-target event between now and fifteen weeks ahead, the
    lookup raises [IndexError] at [items[0]] (line 335); the test for an
    empty answer that returns [False] (lines 337-339) comes after it and
    is never reached. *)
Theorem get_current_release_empty_window_raises (token_path : string) (w w1 : world) (c : creds) :
  Installer.obtain_creds E token_path w = (w1, Ok c) ->
  calendar_list E c (clock w1) (clock w1 + Installer.weeks 15) w1 = Ok [] ->
  Installer.get_current_release E token_path w = (w1, Raise IndexError).
Proof.
  intros Hc Hcal.
  unfold Installer.get_current_release, bind at 1. rewrite Hc.
  unfold bind at 1, Installer.release_targets, bind, OS.now. simpl.
  rewrite Hcal. reflexivity.
Qed.

(** The same slip in [get_release.py], line 67. *)
Lemma get_release_empty_window_raises (w w1 : world) (c : creds) :
  Installer.obtain_creds E
    (os_path_join E (expanduser_home E) ".custom_commands/get_release/token.pickle") w
    = (w1, Ok c) ->
  calendar_list E c (clock w1) (clock w1 + Installer.weeks 15) w1 = Ok [] ->
  GetRelease.get_current_release E w = (w1, Raise IndexError).
Proof.
  intros Hc Hcal.
  unfold GetRelease.get_current_release, bind at 1. rewrite Hc.
  unfold bind at 1, Installer.release_targets, bind, OS.now. simpl.
  rewrite Hcal. reflexivity.
Qed.

(** The lookup never answers [False]: whenever it returns, it returns a
    release. *)
Lemma get_current_release_never_false (token_path : string) (w w1 : world) (r : option string) :
  Installer.get_current_release E token_path w = (w1, Ok r) -> r <> None.
Proof.
  unfold Installer.get_current_release, bind at 1.
  destruct (Installer.obtain_creds E token_path w) as [w2 [c | e]]; [| discriminate].
  unfold bind at 1.
  destruct (Installer.release_targets E c w2) as [w3 [items | e]]; [| discriminate].
  destruct items as [| first rest]; [discriminate |].
  unfold bind, lift. simpl.
  destruct (summary first); simpl; [| discriminate].
  intros H. inversion H. discriminate.
Qed.

End Oracle.

Lemma get_current_release_empty_window_raises_witness :
  let E := Demo.demo_env "linux" [] Demo.no_process [] in
  let w := mkWorld {[ "token.pickle" := File "token" ]} [] 1714521600 in
  Installer.get_current_release E "token.pickle" w = (w, Raise IndexError).
Proof.
  intros E w.
  apply (get_current_release_empty_window_raises E "token.pickle" w w
           (mkCreds true false false)); reflexivity.
Defined.

(** ** The disk-image mount *)

Section Mount.
Context (E : env).

Lemma darwin_not_others (s : string) :
  String.prefix "darwin" s = true ->
  String.prefix "win32" s = false /\ String.prefix "linux" s = false.
Proof.
  destruct s as [| c r]; [discriminate |].
  cbn [String.prefix]. destruct (ascii_dec "d" c) as [<- | Hne]; [| discriminate].
  intros _. split; reflexivity.
Qed.

Lemma check_call_trace (cmd : list string) (cwd : option string) (w : world) :
  trace (fst (OS.check_call E cmd cwd w)) = (trace w ++ [EvRun cmd cwd])%list.
Proof.
  unfold OS.check_call, OS.subprocess_run, OS.external, bind, emit. simpl.
  destruct (snd (run_process E cmd cwd (log (EvRun cmd cwd) w))) as [[rc out] | e]; simpl;
    [destruct (rc =? 0)%Z |]; reflexivity.
Qed.

(** C8: on the disk-image path, once the image is mounted, the unmount
    command runs after the extraction whatever its outcome; when the
    extraction raises, the unmount has run by the time [extract_bundle]
    raises, and the exception that propagates is that of the extraction
    unless the unmount fails itself. *)
Theorem extract_bundle_always_unmounts (bundle_path destination : string) (w : world)
    (fs1 : gmap string entry) (output mount_point : string) :
  String.prefix "darwin" (sys_platform E) = true ->
  run_process E (Installer.attach_cmd bundle_path) None
    (log (EvRun (Installer.attach_cmd bundle_path) None) w) = (fs1, Ok (0%Z, output)) ->
  search_lit_word "/Volumes/dmg." output = Some mount_point ->
  let mounted := set_fs fs1 (log (EvRun (Installer.attach_cmd bundle_path) None) w) in
  let extraction := Installer.xar_extract E bundle_path destination mount_point mounted in
  let unmount :=
    OS.check_call E (Installer.detach_cmd mount_point) None (fst extraction) in
  exists w' r,
    Installer.extract_bundle E bundle_path destination w = (w', r)
    /\ trace w' = (trace w ++
         [EvRun (Installer.attach_cmd bundle_path) None;
          EvRun (Installer.xar_cmd E bundle_path destination mount_point) None;
          EvRun (Installer.detach_cmd mount_point) None])%list
    /\ (forall e, snd extraction = Raise e -> exists e', r = Raise e')
    /\ (snd unmount = Ok tt -> r = snd extraction).
Proof.
  intros Hd Hattach Hmp mounted extraction unmount.
  destruct (darwin_not_others _ Hd) as [Hw Hl].
  unfold Installer.extract_bundle, OS.startswith. rewrite Hw, Hl, Hd.
  unfold Installer.mount_dmg, OS.startswith. rewrite Hd. cbn [negb]. cbv zeta.
  rewrite (bind_ok _ _ _ _ _ (check_output_ok E _ w fs1 output Hattach)).
  rewrite Hmp. fold mounted. unfold finally.
  pose proof (check_call_trace
                (Installer.xar_cmd E bundle_path destination mount_point) None mounted)
    as Htr2.
  subst unmount extraction. unfold Installer.xar_extract in *.
  destruct (OS.check_call E (Installer.xar_cmd E bundle_path destination mount_point)
              None mounted) as [w2 r2].
  pose proof (check_call_trace (Installer.detach_cmd mount_point) None w2) as Htr3.
  cbn [fst snd] in *.
  assert (Htr : forall w3, trace w3 =
                  (trace w2 ++ [EvRun (Installer.detach_cmd mount_point) None])%list ->
                trace w3 = (trace w ++
                  [EvRun (Installer.attach_cmd bundle_path) None;
                   EvRun (Installer.xar_cmd E bundle_path destination mount_point) None;
                   EvRun (Installer.detach_cmd mount_point) None])%list).
  { intros w3 ->. rewrite Htr2. unfold mounted. simpl. rewrite <- !app_assoc. reflexivity. }
  destruct (OS.check_call E (Installer.detach_cmd mount_point) None w2) as [w3 [[] | e3]];
    cbn [fst snd] in *.
  - exists w3, r2. split; [reflexivity |]. split; [auto |].
    split; [intros e ->; eauto | reflexivity].
  - exists w3, (Raise e3). split; [reflexivity |]. split; [auto |].
    split; [eauto | discriminate].
Qed.

End Mount.

Lemma extract_bundle_always_unmounts_witness :
  let E := Demo.demo_env "darwin" [] Demo.failing_xar [] in
  exists w',
    Installer.extract_bundle E "/dl/Suite.dmg" "/opt/tmp" Demo.w0 = (w', Raise CalledProcessError)
    /\ trace w' =
         [EvRun ["hdiutil"; "attach"; "-mountrandom"; "/Volumes"; "-nobrowse"; "/dl/Suite.dmg"] None;
          EvRun ["xar"; "-C"; "/opt/tmp"; "-xvf"; "/Volumes/dmg.a1B2/Suite.pkg"] None;
          EvRun ["hdiutil"; "detach"; "-force"; "/Volumes/dmg.a1B2"] None].
Proof.
  intros E.
  destruct (extract_bundle_always_unmounts E "/dl/Suite.dmg" "/opt/tmp" Demo.w0
              ∅ Demo.attach_output "/Volumes/dmg.a1B2")
    as (w' & r & Heq & Htr & Hraise & Hsame).
  - reflexivity.
  - reflexivity.
  - reflexivity.
  - exists w'. split; [| exact Htr].
    rewrite Heq. f_equal. apply Hsame. reflexivity.
Defined.

(** ** The build locator *)

Section Locator.
Context (E : env).
Implicit Types (release build_type bundle_type platform : string) (knime : bool).
Implicit Types (w : world) (l builds order : list string).

Lemma logs_nil w : logs [] w = w.
Proof. destruct w. unfold logs. simpl. rewrite app_nil_r. reflexivity. Qed.

Lemma logs_log (ev : event) (evs : list event) w :
  logs evs (log ev w) = logs (ev :: evs) w.
Proof. unfold logs, log. simpl. rewrite <- app_assoc. reflexivity. Qed.

(** All that the resolver does to the world is its one request. *)
Lemma get_bundle_name_world release build_type build_page bundle_type platform knime w :
  fst (Installer.get_bundle_name E release build_type build_page bundle_type platform knime w)
  = log (EvGet (Spec.build_url build_type release build_page)) w.
Proof.
  unfold Installer.get_bundle_name, bind, OS.get, OS.raise_for_status, lift, raise, ret.
  fold (Spec.build_url build_type release build_page).
  destruct (requests_get E w _) as [resp | e]; [| reflexivity].
  destruct ((400 <=? status_code resp)%Z && (status_code resp <? 600)%Z); reflexivity.
Qed.

(** The scan requests the pages of a prefix of the builds, in order. *)
Lemma scan_world release build_type bundle_type platform knime l st w :
  exists k,
    fst (Installer.scan E release build_type bundle_type platform knime l st w)
    = logs (List.map (fun b => EvGet (Spec.build_url build_type release b)) (firstn k l)) w.
Proof.
  revert st w. induction l as [| b rest IH]; intros st w.
  - exists 0%nat. simpl. rewrite logs_nil. reflexivity.
  - cbn [Installer.scan]. unfold bind at 1.
    pose proof (get_bundle_name_world release build_type b bundle_type platform knime w) as Hw.
    destruct (Installer.get_bundle_name E release build_type b bundle_type platform knime w)
      as [w1 [name | e]]; cbn [fst] in Hw; subst w1.
    + destruct (truthy name).
      * exists 1%nat. reflexivity.
      * destruct (IH (Some (b, name)) (log (EvGet (Spec.build_url build_type release b)) w))
          as [k Hk].
        exists (S k). rewrite Hk. cbn [firstn List.map]. apply logs_log.
    + exists 1%nat. reflexivity.
Qed.

(** A scan in which no build has the bundle ends on the last build. *)
Lemma scan_exhausted release build_type bundle_type platform knime l :
  (forall b w1, In b l ->
     exists name,
       snd (Installer.get_bundle_name E release build_type b bundle_type platform knime w1)
         = Ok name /\ truthy name = false) ->
  forall st w,
  exists w' st',
    Installer.scan E release build_type bundle_type platform knime l st w = (w', Ok st')
    /\ match l with
       | [] => st' = st
       | _ :: _ => exists name, st' = Some (List.last l EmptyString, name)
                                /\ truthy name = false
       end.
Proof.
  induction l as [| b rest IH]; intros Hall st w.
  - exists w, st. split; reflexivity.
  - cbn [Installer.scan]. unfold bind at 1.
    destruct (Hall b w (or_introl eq_refl)) as [name [Hname Hfalse]].
    destruct (Installer.get_bundle_name E release build_type b bundle_type platform knime w)
      as [w1 r]. cbn [snd] in Hname. subst r. rewrite Hfalse.
    destruct (IH (fun b' w1' Hin => Hall b' w1' (or_intror Hin)) (Some (b, name)) w1)
      as (w' & st' & Hscan & Hst).
    exists w', st'. split; [exact Hscan |].
    destruct rest as [| b' rest'].
    + subst st'. exists name. split; [reflexivity | exact Hfalse].
    + exact Hst.
Qed.

Lemma last_map_Some l (d : string) :
  l <> [] -> List.last (List.map Some l) None = Some (List.last l d).
Proof.
  induction l as [| a [| b t] IH]; intros Hne; [congruence | reflexivity |].
  change (List.last (List.map Some (b :: t)) None = Some (List.last (b :: t) d)).
  apply IH. discriminate.
Qed.

Lemma suffix_numbered (b : string) : Spec.numbered b -> Spec.suffix b = Ok (Spec.suffix_of b).
Proof. intros [n Hn]. unfold Spec.suffix_of. rewrite Hn. reflexivity. Qed.

(** What lines 443-444 compute on a listing whose ends are numbered. *)
Lemma arrange_numbered l :
  l <> [] ->
  Spec.numbered (List.last l EmptyString) -> Spec.numbered (List.hd EmptyString l) ->
  Installer.arrange l
  = Ok (if (Spec.suffix_of (List.last l EmptyString) >? Spec.suffix_of (List.hd EmptyString l))%Z
        then List.rev l else l).
Proof.
  intros Hne Hlast Hhd. unfold Installer.arrange.
  rewrite (last_map_Some l EmptyString Hne). cbn [of_option rbind].
  fold (Spec.suffix (List.last l EmptyString)). rewrite (suffix_numbered _ Hlast).
  cbn [rbind]. destruct l as [| a t]; [congruence |].
  cbn [nth_error of_option rbind List.hd] in *.
  fold (Spec.suffix a). rewrite (suffix_numbered _ Hhd). reflexivity.
Qed.

Lemma StronglySorted_rev {A} (R : relation A) (l : list A) :
  StronglySorted R l -> StronglySorted (flip R) (List.rev l).
Proof.
  induction 1 as [| a l Hs IH Hall]; [constructor |].
  cbn [List.rev]. apply StronglySorted_app_2.
  - intros x1 x2 Hx1 Hx2. apply list_elem_of_singleton in Hx2. subst x2.
    apply list_elem_of_In, in_rev in Hx1. unfold flip.
    rewrite Forall_forall in Hall. apply Hall. apply list_elem_of_In. exact Hx1.
  - exact IH.
  - repeat constructor.
Qed.

Lemma last_In {A} (l : list A) (d : A) : l <> [] -> In (List.last l d) l.
Proof.
  induction l as [| a [| b t] IH]; intros Hne; [congruence | left; reflexivity |].
  right. apply IH. discriminate.
Qed.

Lemma StronglySorted_firstn {A} (R : relation A) (k : nat) (l : list A) :
  StronglySorted R l -> StronglySorted R (firstn k l).
Proof.
  intros H. rewrite <- (firstn_skipn k l) in H.
  apply StronglySorted_app_1_l in H. exact H.
Qed.

(** A listing in strictly ascending or strictly descending order comes
    out of lines 443-444 in strictly descending order. *)
Lemma arrange_monotone l :
  l <> [] -> Forall Spec.numbered l ->
  Spec.ascending l \/ Spec.descending l ->
  exists order,
    Installer.arrange l = Ok order /\ (order = l \/ order = List.rev l)
    /\ Spec.descending order.
Proof.
  intros Hne Hnum Hmono.
  assert (Hlast : Spec.numbered (List.last l EmptyString)).
  { rewrite Forall_forall in Hnum. apply Hnum, list_elem_of_In, last_In, Hne. }
  assert (Hhd : Spec.numbered (List.hd EmptyString l)).
  { destruct l as [| a t]; [congruence |]. inversion Hnum; assumption. }
  rewrite (arrange_numbered l Hne Hlast Hhd).
  destruct l as [| a t]; [congruence |]. cbn [List.hd].
  destruct t as [| b t'].
  - cbn [List.last].
    assert (Hf : (Spec.suffix_of a >? Spec.suffix_of a)%Z = false).
    { rewrite Z.gtb_ltb. apply Z.ltb_irrefl. }
    rewrite Hf. eexists. split; [reflexivity |]. split; [left; reflexivity |].
    repeat constructor.
  - assert (Hin : In (List.last (a :: b :: t') EmptyString) (b :: t')).
    { change (List.last (a :: b :: t') EmptyString) with (List.last (b :: t') EmptyString).
      apply last_In. discriminate. }
    destruct Hmono as [Hasc | Hdesc].
    + assert (Hlt : (Spec.suffix_of a < Spec.suffix_of (List.last (a :: b :: t') EmptyString))%Z).
      { inversion Hasc as [| ? ? _ Hall]; subst. rewrite Forall_forall in Hall.
        apply Hall, list_elem_of_In, Hin. }
      rewrite Z.gtb_ltb. apply Z.ltb_lt in Hlt. rewrite Hlt.
      eexists. split; [reflexivity |]. split; [right; reflexivity |].
      apply (StronglySorted_rev Spec.older). exact Hasc.
    + assert (Hlt : (Spec.suffix_of (List.last (a :: b :: t') EmptyString) < Spec.suffix_of a)%Z).
      { inversion Hdesc as [| ? ? _ Hall]; subst. rewrite Forall_forall in Hall.
        apply (Hall _ (proj2 (list_elem_of_In _ _) Hin)). }
      rewrite Z.gtb_ltb.
      assert (Hf : (Spec.suffix_of a <? Spec.suffix_of (List.last (a :: b :: t') EmptyString))%Z
                   = false) by (apply Z.ltb_ge; lia).
      rewrite Hf. eexists. split; [reflexivity |]. split; [left; reflexivity |]. exact Hdesc.
Qed.

(** Lines 443-444 do not sort: what comes out is the listing or its
    reverse, so it is in descending order only when the listing was in
    ascending or in descending order already. *)
Lemma arrange_descending_only_if_monotone l order :
  Installer.arrange l = Ok order ->
  (order = l \/ order = List.rev l)
  /\ (Spec.descending order -> Spec.ascending l \/ Spec.descending l).
Proof.
  unfold Installer.arrange. intros H.
  destruct (of_option IndexError (List.last (List.map Some l) None)) as [last | e];
    [| discriminate].
  cbn [rbind] in H. destruct (int (slice last 6 9)) as [a | e]; [| discriminate].
  cbn [rbind] in H. destruct (of_option IndexError (nth_error l 0)) as [first | e];
    [| discriminate].
  cbn [rbind] in H. destruct (int (slice first 6 9)) as [b | e]; [| discriminate].
  cbn [rbind] in H. inversion H as [Horder]. clear H.
  destruct (a >? b)%Z.
  - split; [right; reflexivity |]. intros Hdesc. left.
    apply (StronglySorted_rev Spec.newer) in Hdesc. rewrite rev_involutive in Hdesc.
    exact Hdesc.
  - split; [left; reflexivity |]. intros Hdesc. right. exact Hdesc.
Qed.

(** [get_build_info] once the listing is fetched, parsed and arranged. *)
Lemma get_build_info_scan release build_type bundle_type knime w (resp : response) builds order :
  requests_get E w (Spec.listing_url build_type release) = Ok resp ->
  Installer.parse_builds (parsed resp) = Ok builds ->
  Installer.arrange builds = Ok order ->
  Installer.get_build_info E release build_type bundle_type knime w
  = bind (Installer.scan E release build_type bundle_type (Installer.platform_name E) knime
            order None)
         (fun st => match st with
                    | Some r => ret r
                    | None => raise UnboundLocalError
                    end)
         (log (EvGet (Spec.listing_url build_type release)) w).
Proof.
  intros Hget Hparse Harr.
  unfold Installer.get_build_info. fold (Spec.listing_url build_type release).
  rewrite (bind_ok _ _ w (log (EvGet (Spec.listing_url build_type release)) w) resp)
    by (unfold OS.get; rewrite Hget; reflexivity).
  rewrite (bind_ok _ _ _ (log (EvGet (Spec.listing_url build_type release)) w) builds)
    by (unfold lift; rewrite Hparse; reflexivity).
  rewrite (bind_ok _ _ _ (log (EvGet (Spec.listing_url build_type release)) w) order)
    by (unfold lift; rewrite Harr; reflexivity).
  reflexivity.
Qed.

(** Where the locator does arrange the latest build first: a listing
    whose suffixes are in strictly ascending or strictly descending
    order is scanned in strictly descending order.  The order of the
    scan is the listing or its reverse, and the builds whose pages are
    requested are a prefix of it. *)
Lemma get_build_info_monotone_listing release build_type bundle_type knime w
    (resp : response) builds :
  requests_get E w (Spec.listing_url build_type release) = Ok resp ->
  Installer.parse_builds (parsed resp) = Ok builds ->
  builds <> [] -> Forall Spec.numbered builds ->
  Spec.ascending builds \/ Spec.descending builds ->
  exists order k,
    Installer.arrange builds = Ok order
    /\ (order = builds \/ order = List.rev builds)
    /\ Spec.descending order
    /\ trace (fst (Installer.get_build_info E release build_type bundle_type knime w))
       = (trace w ++ EvGet (Spec.listing_url build_type release)
            :: List.map (fun b => EvGet (Spec.build_url build_type release b))
                 (firstn k order))%list
    /\ Spec.descending (firstn k order).
Proof.
  intros Hget Hparse Hne Hnum Hmono.
  destruct (arrange_monotone builds Hne Hnum Hmono) as (order & Harr & Hshape & Hdesc).
  destruct (scan_world release build_type bundle_type (Installer.platform_name E) knime
              order None (log (EvGet (Spec.listing_url build_type release)) w)) as [k Hk].
  exists order, k. repeat split; try assumption.
  - rewrite (get_build_info_scan _ _ _ _ _ _ _ _ Hget Hparse Harr).
    unfold bind at 1.
    destruct (Installer.scan E release build_type bundle_type (Installer.platform_name E)
                knime order None (log (EvGet (Spec.listing_url build_type release)) w))
      as [w1 [[r |] | e]]; cbn [fst] in *; subst w1; unfold logs, log;
      cbn [trace fst ret raise]; rewrite <- app_assoc; reflexivity.
  - apply StronglySorted_firstn. exact Hdesc.
Qed.

(** C2, as the code has it: when the listing is not empty and no build
    of the scan has the bundle, [get_build_info] returns, without
    raising, the last build scanned paired with a falsy bundle name
    ([None] or the empty string).  [main] does not test that value: with
    the name [None], building the download address raises [TypeError]. *)
Theorem get_build_info_exhausted release build_type bundle_type knime w
    (resp : response) builds order :
  requests_get E w (Spec.listing_url build_type release) = Ok resp ->
  Installer.parse_builds (parsed resp) = Ok builds ->
  Installer.arrange builds = Ok order ->
  (forall b w1, In b order ->
     exists name,
       snd (Installer.get_bundle_name E release build_type b bundle_type
              (Installer.platform_name E) knime w1) = Ok name
       /\ truthy name = false) ->
  exists w' name,
    Installer.get_build_info E release build_type bundle_type knime w
    = (w', Ok (List.last order EmptyString, name))
    /\ truthy name = false
    /\ (name = None -> release <> EmptyString ->
        forall download_only download_dest install_dest token_path,
          Installer.main E bundle_type build_type (Some release) knime download_only
            download_dest install_dest token_path w
          = (w', Raise TypeError)).
Proof.
  intros Hget Hparse Harr Hall.
  assert (Hne : order <> []).
  { unfold Installer.arrange in Harr. destruct builds as [| a t]; [discriminate |].
    destruct (List.last (List.map Some (a :: t)) None); [| discriminate].
    cbn [of_option rbind] in Harr.
    destruct (int (slice s 6 9)); [| discriminate]. cbn [rbind nth_error of_option] in Harr.
    destruct (int (slice a 6 9)); [| discriminate]. cbn [rbind] in Harr.
    assert (Hlen : List.length order = List.length (a :: t)).
    { destruct (_ >? _)%Z; inversion Harr; subst;
        [apply (length_rev (a :: t)) | reflexivity]. }
    intros ->. discriminate Hlen. }
  destruct (scan_exhausted release build_type bundle_type (Installer.platform_name E) knime
              order Hall None (log (EvGet (Spec.listing_url build_type release)) w))
    as (w' & st' & Hscan & Hst).
  destruct order as [| b rest]; [congruence |].
  destruct Hst as (name & -> & Hfalse).
  assert (Hinfo : Installer.get_build_info E release build_type bundle_type knime w
                  = (w', Ok (List.last (b :: rest) EmptyString, name))).
  { rewrite (get_build_info_scan _ _ _ _ _ _ _ _ Hget Hparse Harr).
    rewrite (bind_ok _ _ _ _ _ Hscan). reflexivity. }
  exists w', name. split; [exact Hinfo |]. split; [exact Hfalse |].
  intros -> Hrel download_only download_dest install_dest token_path.
  unfold Installer.main.
  destruct release as [| c r]; [congruence |]. cbn [truthy negb].
  rewrite (bind_ok _ _ w w (Some (String c r))) by reflexivity.
  rewrite (bind_ok _ _ _ _ _ Hinfo). reflexivity.
Qed.

End Locator.

Lemma get_build_info_monotone_listing_witness :
  let E := Demo.demo_env "linux"
             (Demo.catalog [("build-048", Demo.general_only); ("build-049", Demo.all_bundles);
                            ("build-050", Demo.general_only)])
             Demo.no_process [] in
  exists order k,
    Installer.arrange ["build-048"; "build-049"; "build-050"] = Ok order
    /\ (order = ["build-048"; "build-049"; "build-050"]
        \/ order = List.rev ["build-048"; "build-049"; "build-050"])
    /\ Spec.descending order
    /\ trace (fst (Installer.get_build_info E "2024-2" "OB" "academic" false Demo.w0))
       = (trace Demo.w0 ++ EvGet (Spec.listing_url "OB" "2024-2")
            :: List.map (fun b => EvGet (Spec.build_url "OB" "2024-2" b)) (firstn k order))%list
    /\ Spec.descending (firstn k order).
Proof.
  intros E.
  refine (get_build_info_monotone_listing E "2024-2" "OB" "academic" false Demo.w0
            (Demo.page 200 (Demo.listing_page ["build-048"; "build-049"; "build-050"]))
            ["build-048"; "build-049"; "build-050"] _ _ _ _ _).
  - reflexivity.
  - vm_compute. reflexivity.
  - discriminate.
  - repeat constructor; eexists; vm_compute; reflexivity.
  - left. unfold Spec.ascending, Spec.older.
    repeat constructor; vm_compute; reflexivity.
Defined.

(** C1: the locator does not arrange the latest build first.  On the
    listing 002, 005, 001, none of whose builds has the bundle, lines
    443-444 leave the listing as it is (the last suffix is not greater
    than the first), and the pages are requested in the order of the
    listing, which is not descending: the latest build, 005, is the
    second to be scanned, and the build returned is 001. *)
Theorem get_build_info_mixed_listing_unsorted :
  let E := Demo.demo_env "linux"
             (Demo.catalog [("build-002", Demo.general_only); ("build-005", Demo.general_only);
                            ("build-001", Demo.general_only)])
             Demo.no_process [] in
  Installer.parse_builds (Demo.listing_page ["build-002"; "build-005"; "build-001"])
    = Ok ["build-002"; "build-005"; "build-001"]
  /\ Installer.arrange ["build-002"; "build-005"; "build-001"]
     = Ok ["build-002"; "build-005"; "build-001"]
  /\ Installer.get_build_info E "2024-2" "OB" "academic" false Demo.w0
     = (logs [EvGet (Spec.listing_url "OB" "2024-2");
              EvGet (Spec.build_url "OB" "2024-2" "build-002");
              EvGet (Spec.build_url "OB" "2024-2" "build-005");
              EvGet (Spec.build_url "OB" "2024-2" "build-001")] Demo.w0,
        Ok ("build-001", None))
  /\ Spec.requested
       (trace (fst (Installer.get_build_info E "2024-2" "OB" "academic" false Demo.w0)))
     = [Spec.listing_url "OB" "2024-2";
        Spec.build_url "OB" "2024-2" "build-002";
        Spec.build_url "OB" "2024-2" "build-005";
        Spec.build_url "OB" "2024-2" "build-001"]
  /\ ~ Spec.descending ["build-002"; "build-005"; "build-001"]
  /\ Spec.descending ["build-005"; "build-002"; "build-001"].
Proof.
  intros E. repeat split; try (vm_compute; reflexivity).
  - intros H. inversion H as [| ? ? _ Hall]; subst.
    inversion Hall as [| ? ? Hlt _]; subst.
    vm_compute in Hlt. discriminate.
  - unfold Spec.descending, Spec.newer, Spec.older.
    repeat constructor; vm_compute; reflexivity.
Qed.

Lemma get_build_info_exhausted_witness :
  let E := Demo.demo_env "linux"
             (Demo.catalog [("build-050", Demo.general_only); ("build-049", Demo.general_only)])
             Demo.no_process [] in
  exists w',
    Installer.get_build_info E "2024-2" "OB" "academic" false Demo.w0
    = (w', Ok ("build-049", None))
    /\ Installer.main E "academic" "OB" (Some "2024-2") false false None None "token.pickle"
         Demo.w0 = (w', Raise TypeError).
Proof.
  intros E.
  destruct (get_build_info_exhausted E "2024-2" "OB" "academic" false Demo.w0
              (Demo.page 200 (Demo.listing_page ["build-050"; "build-049"]))
              ["build-050"; "build-049"] ["build-050"; "build-049"])
    as (w' & name & Hinfo & Hfalse & Hmain).
  - reflexivity.
  - vm_compute. reflexivity.
  - vm_compute. reflexivity.
  - intros b w1 [<- | [<- | []]]; exists None; split; reflexivity.
  - exists w'.
    assert (Hname : name = None).
    { assert (H : snd (Installer.get_build_info E "2024-2" "OB" "academic" false Demo.w0)
                  = Ok ("build-049", None)) by (vm_compute; reflexivity).
      rewrite Hinfo in H. cbn [snd] in H. congruence. }
    subst name. split; [exact Hinfo |].
    apply Hmain; [reflexivity | discriminate].
Defined.

(** C2 fails as stated: on a listing without builds, nothing is scanned
    and [get_build_info] raises [IndexError] (line 443); and on a listing
    none of whose builds has the bundle, the run of [main] ends in a
    [TypeError] (line 761). *)
Lemma get_build_info_empty_listing_raises :
  let E := Demo.demo_env "linux" (Demo.catalog []) Demo.no_process [] in
  let E' := Demo.demo_env "linux"
              (Demo.catalog [("build-050", Demo.general_only); ("build-049", Demo.general_only)])
              Demo.no_process [] in
  Installer.parse_builds (Demo.listing_page []) = Ok []
  /\ snd (Installer.get_build_info E "2024-2" "OB" "academic" false Demo.w0)
     = Raise IndexError
  /\ snd (Installer.main E' "academic" "OB" (Some "2024-2") false false None None
            "token.pickle" Demo.w0)
     = Raise TypeError.
Proof. intros E E'. repeat split; vm_compute; reflexivity. Qed.

(** The scenario of the specification: the newest build lacks the
    bundle, the one before has it. *)
Example locate_skips_build_without_bundle :
  let E := Demo.demo_env "linux"
             (Demo.catalog [("build-050", Demo.general_only); ("build-049", Demo.all_bundles)])
             Demo.no_process [] in
  snd (Installer.get_build_info E "2024-2" "OB" "academic" false Demo.w0)
  = Ok ("build-049", Some "Suite_2024-2_Academic_Linux-x86_64.tar").
Proof. vm_compute. reflexivity. Qed.

(** ** Removal of a directory tree *)

Lemma remove_tree_lookup (windows : bool) (p k : string) (f : gmap string entry) :
  OS.remove_tree windows p f !! k = if OS.below windows p k then None else f !! k.
Proof.
  unfold OS.remove_tree. destruct (OS.below windows p k) eqn:Hu.
  - apply map_lookup_filter_None. right. intros x _. cbn [fst]. rewrite Hu. discriminate.
  - destruct (f !! k) as [x |] eqn:Hk.
    + apply map_lookup_filter_Some. split; [exact Hk | exact Hu].
    + apply map_lookup_filter_None. left. exact Hk.
Qed.


Lemma below_self (windows : bool) (p : string) : OS.below windows p p = true.
Proof. unfold OS.below. rewrite String.eqb_refl. reflexivity. Qed.



Lemma remove_tree_root (windows : bool) (p : string) (f : gmap string entry) :
  OS.remove_tree windows p f !! p = None.
Proof. rewrite remove_tree_lookup, below_self. reflexivity. Qed.

(** ** The record of what was done *)

(** No step of the script takes anything back from the record of its
    actions: whatever a function does, the record it leaves begins with
    the record it found. *)

Lemma grows_pure {A} (f : world -> result A) : Spec.grows (fun w => (w, f w)).
Proof. intros w. exists []. cbn [fst]. rewrite app_nil_r. reflexivity. Qed.

Lemma grows_ret {A} (a : A) : Spec.grows (ret a).
Proof. apply (grows_pure (fun _ => Ok a)). Qed.

Lemma grows_raise {A} (e : exn) : Spec.grows (@raise A e).
Proof. apply (grows_pure (fun _ => Raise e)). Qed.

Lemma grows_lift {A} (r : result A) : Spec.grows (lift r).
Proof. apply (grows_pure (fun _ => r)). Qed.

Lemma grows_now : Spec.grows OS.now.
Proof. apply (grows_pure (fun w => Ok (clock w))). Qed.

Lemma grows_bind {A B} (m : M A) (k : A -> M B) :
  Spec.grows m -> (forall a, Spec.grows (k a)) -> Spec.grows (bind m k).
Proof.
  intros Hm Hk w. unfold bind. destruct (Hm w) as [evs1 H1].
  destruct (m w) as [w1 [a | e]]; cbn [fst] in H1.
  - destruct (Hk a w1) as [evs2 H2]. exists (evs1 ++ evs2)%list.
    rewrite H2, H1, app_assoc. reflexivity.
  - exists evs1. exact H1.
Qed.

Lemma grows_finally {A} (body : M A) (cleanup : M unit) :
  Spec.grows body -> Spec.grows cleanup -> Spec.grows (finally body cleanup).
Proof.
  intros Hb Hc w. unfold finally. destruct (Hb w) as [evs1 H1].
  destruct (body w) as [w1 r]; cbn [fst] in H1.
  destruct (Hc w1) as [evs2 H2].
  destruct (cleanup w1) as [w2 [[] | e]]; cbn [fst] in *;
    exists (evs1 ++ evs2)%list; rewrite H2, H1, app_assoc; reflexivity.
Qed.

Lemma grows_emit (ev : event) : Spec.grows (emit ev).
Proof. intros w. exists [ev]. reflexivity. Qed.

Lemma grows_sleep (n : Z) : Spec.grows (OS.sleep n).
Proof. intros w. exists [EvSleep n]. reflexivity. Qed.

Lemma grows_remove (p : string) : Spec.grows (OS.remove p).
Proof.
  intros w. unfold OS.remove. destruct (fs w !! p) as [[c |] |].
  - exists [EvRemove p]. reflexivity.
  - exists []. cbn [fst]. rewrite app_nil_r. reflexivity.
  - exists []. cbn [fst]. rewrite app_nil_r. reflexivity.
Qed.

Lemma grows_mkdir_parents (p : string) : Spec.grows (OS.mkdir_parents p).
Proof.
  intros w. unfold OS.mkdir_parents. destruct (fs w !! p) as [x |].
  - exists []. cbn [fst]. rewrite app_nil_r. reflexivity.
  - exists [EvMkdir p]. reflexivity.
Qed.

Lemma grows_open_w (p : string) : Spec.grows (OS.open_w p).
Proof.
  intros w. unfold OS.open_w. destruct (fs w !! p) as [[c |] |].
  - exists [EvOpenW p]. reflexivity.
  - exists []. cbn [fst]. rewrite app_nil_r. reflexivity.
  - exists [EvOpenW p]. reflexivity.
Qed.

Lemma grows_write (p data : string) : Spec.grows (OS.write p data).
Proof.
  intros w. unfold OS.write. destruct (fs w !! p) as [[c |] |];
    exists [EvWrite p data]; reflexivity.
Qed.

Lemma grows_read (p : string) : Spec.grows (OS.read p).
Proof.
  intros w. unfold OS.read. destruct (fs w !! p) as [[c |] |];
    exists []; cbn [fst]; rewrite app_nil_r; reflexivity.
Qed.

Create HintDb grows discriminated.

#[local] Hint Resolve grows_pure grows_ret grows_raise grows_lift grows_now grows_emit
  grows_sleep grows_remove grows_mkdir_parents grows_open_w grows_write
  grows_read : grows.

(** One step of a proof that a composite grows: through a [bind], a
    [finally] or a test, or by a function that is known to grow. *)
Ltac grows_step :=
  first
    [ apply grows_bind; [| intros ?]
    | apply grows_finally
    | match goal with
      | |- Spec.grows (if ?c then _ else _) => destruct c
      | |- Spec.grows (match ?x with _ => _ end) => destruct x
      end
    | solve [auto with grows] ].

Ltac grows_auto := repeat grows_step.

Section Growth.
Context (E : env).

Lemma grows_get (url : string) : Spec.grows (OS.get E url).
Proof. intros w. exists [EvGet url]. reflexivity. Qed.

Lemma grows_post (url : string) (form : list (string * string)) :
  Spec.grows (OS.post E url form).
Proof. intros w. exists [EvPost url form]. reflexivity. Qed.

Lemma grows_raise_for_status (resp : response) : Spec.grows (OS.raise_for_status resp).
Proof. unfold OS.raise_for_status. grows_auto. Qed.

Lemma grows_external {A} (act : world -> gmap string entry * result A) :
  Spec.grows (OS.external act).
Proof. intros w. exists []. cbn [fst OS.external set_fs trace]. rewrite app_nil_r. reflexivity. Qed.

Lemma grows_rmtree (p : string) : Spec.grows (OS.rmtree E p).
Proof.
  intros w. unfold OS.rmtree. destruct (fs w !! p) as [[c |] |].
  - exists []. cbn [fst]. rewrite app_nil_r. reflexivity.
  - exists [EvRmtree p]. reflexivity.
  - exists []. cbn [fst]. rewrite app_nil_r. reflexivity.
Qed.

Hint Resolve grows_get grows_post grows_raise_for_status grows_external grows_rmtree : grows.

Lemma grows_subprocess_run (cmd : list string) (cwd : option string) :
  Spec.grows (OS.subprocess_run E cmd cwd).
Proof. unfold OS.subprocess_run. grows_auto. Qed.

Hint Resolve grows_subprocess_run : grows.

Lemma grows_check_call (cmd : list string) (cwd : option string) :
  Spec.grows (OS.check_call E cmd cwd).
Proof. unfold OS.check_call. grows_auto. Qed.

Lemma grows_check_output (cmd : list string) : Spec.grows (OS.check_output E cmd).
Proof. unfold OS.check_output. grows_auto. Qed.

Hint Resolve grows_check_call grows_check_output : grows.

Lemma grows_write_chunks (target : string) (total_size : Z) (cs : list string) :
  Spec.grows (Installer.write_chunks target total_size cs).
Proof.
  induction cs as [| chunk rest IH]; cbn [Installer.write_chunks]; grows_auto; exact IH.
Qed.

Hint Resolve grows_write_chunks : grows.

Lemma grows_create_clean_dirs (dir : string) :
  Spec.grows (Installer.create_clean_dirs E dir).
Proof. unfold Installer.create_clean_dirs. grows_auto. Qed.

Lemma grows_move_all (dirname destination : string) (names : list string) :
  Spec.grows (Installer.move_all E dirname destination names).
Proof.
  induction names as [| name rest IH]; cbn [Installer.move_all]; grows_auto; exact IH.
Qed.

Hint Resolve grows_create_clean_dirs grows_move_all : grows.

Lemma grows_flatten (bundle_path destination : string) :
  Spec.grows (Installer.flatten E bundle_path destination).
Proof. unfold Installer.flatten. grows_auto. Qed.

Lemma grows_mount_dmg {A} (dmg_path : string) (body : string -> M A) :
  (forall mount_point, Spec.grows (body mount_point)) ->
  Spec.grows (Installer.mount_dmg E dmg_path body).
Proof. intros Hbody. unfold Installer.mount_dmg. grows_auto. Qed.

Lemma grows_xar_extract (bundle_path destination mount_point : string) :
  Spec.grows (Installer.xar_extract E bundle_path destination mount_point).
Proof. unfold Installer.xar_extract. grows_auto. Qed.

Hint Resolve grows_flatten grows_xar_extract : grows.

Lemma grows_extract_bundle (bundle_path destination : string) :
  Spec.grows (Installer.extract_bundle E bundle_path destination).
Proof.
  unfold Installer.extract_bundle. grows_auto.
  apply grows_mount_dmg. intros mount_point. apply grows_xar_extract.
Qed.

Lemma grows_darwin_payloads (installer_dir target_dir : string) (names : list string) :
  Spec.grows (Installer.darwin_payloads E installer_dir target_dir names).
Proof.
  induction names as [| name rest IH]; cbn [Installer.darwin_payloads]; grows_auto; exact IH.
Qed.

Hint Resolve grows_extract_bundle grows_darwin_payloads : grows.

Lemma grows_install_schrodinger_bundle (release bundle_installer local_install_dir : string) :
  Spec.grows (Installer.install_schrodinger_bundle E release bundle_installer local_install_dir).
Proof.
  unfold Installer.install_schrodinger_bundle, Installer._run_install_cmd,
    Installer._get_linux_install_cmd, Installer._darwin_install.
  grows_auto.
Qed.

Lemma grows_install_schrodinger_hosts (build_type release build_id installation_dir : string) :
  Spec.grows (Installer.install_schrodinger_hosts E build_type release build_id installation_dir).
Proof. unfold Installer.install_schrodinger_hosts. grows_auto. Qed.

Lemma grows_install_license_stub (installation_dir : string) :
  Spec.grows (Installer.install_license_stub E installation_dir).
Proof. unfold Installer.install_license_stub. grows_auto. Qed.



End Growth.

(** ** The local installation *)

Section LocalInstall.
Context (E : env).



Lemma classify_missing_path (w : world) (path build : string) :
  fs w !! path = None -> Spec.classify E w path build = Some Spec.Absent.
Proof. intros H. unfold Spec.classify, OS.isdir. rewrite H. reflexivity. Qed.



(** Outside the three states: a directory without a readable manifest
    makes the check raise, before any uninstall or download. *)
Lemma main_install_no_manifest (build_type release latest_build download_url bundle_path
    local_install_dir : string) (download_only : bool) (w : world) :
  OS.isdir local_install_dir w = true ->
  fs w !! os_path_join E local_install_dir "version.txt" = None ->
  Installer.main_install E build_type release latest_build download_url bundle_path
    local_install_dir download_only w = (w, Raise FileNotFoundError).
Proof.
  intros Hdir Hnone. unfold Installer.main_install. cbv zeta.
  unfold bind at 1. rewrite Hdir.
  unfold bind at 1, Installer.get_local_build_version, OS.read. rewrite Hnone. reflexivity.
Qed.

End LocalInstall.



(** In the stale state the tree is removed before the request of the
    download is issued. *)
Example stale_removes_then_downloads :
  let E := Demo.demo_env "linux" [] Demo.no_process [] in
  let r := Installer.main_install E "OB" "2024-2" "build-050" "http://host/Suite.tar"
             "/dl/Suite.tar" "/scr/LBI/suites2024-2" true Demo.installed_049 in
  trace (fst r) = [EvRmtree "/scr/LBI/suites2024-2"; EvGet "http://host/Suite.tar"]
  /\ fs (fst r) = ∅.
Proof. vm_compute. split; reflexivity. Qed.

(** ** More on the bundle resolver *)

Section ResolverEdges.
Context (E : env).
Implicit Types (release build_type build_page bundle_type platform : string).
Implicit Types (knime : bool) (w : world) (resp : response).

(** X1: away from the MacOSX case of line 515 (another platform, or the
    optional component asked for, or the academic bundle), the resolver
    returns the file name of the first matching link. *)
Theorem get_bundle_name_first_link release build_type build_page bundle_type platform knime
    w resp header section first rest :
  requests_get E w (Spec.build_url build_type release build_page) = Ok resp ->
  Spec.fetchable resp ->
  platform <> "MacOSX" \/ knime = true \/ bundle_type = "academic" ->
  Soup.find "h3" (Installer.header_of bundle_type ++ " Installers") (parsed resp)
    = Some header ->
  Soup.find_next_sibling header = Some section ->
  Installer.matching_links (Installer.filter_of bundle_type platform) section
    = first :: rest ->
  Installer.get_bundle_name E release build_type build_page bundle_type platform knime w
  = (log (EvGet (Spec.build_url build_type release build_page)) w,
     let* file := Installer.installer_file_of first in Ok (Some file)).
Proof.
  intros Hget Hst Hcase Hh Hs Hl.
  rewrite (get_bundle_name_fetched _ _ _ _ _ _ _ _ _ Hget Hst). f_equal.
  unfold Installer.bundle_name_in. rewrite Hh, Hs, Hl. cbn [List.length Nat.eqb nth_error of_option rbind].
  assert (Hsel : String.eqb platform "MacOSX" && negb knime
                 && negb (String.eqb bundle_type "academic") = false).
  { destruct Hcase as [Hp | [-> | ->]].
    - apply String.eqb_neq in Hp. rewrite Hp. reflexivity.
    - destruct (String.eqb platform "MacOSX"); reflexivity.
    - destruct (String.eqb platform "MacOSX"), knime; reflexivity. }
  rewrite Hsel. reflexivity.
Qed.

(** X2: when the header of the bundle type is found and no tag follows
    it under its parent, the [AttributeError] of line 503 is outside the
    [try] and leaves the resolver; [None] is not returned. *)
Theorem get_bundle_name_header_without_section release build_type build_page bundle_type
    platform knime w resp header :
  requests_get E w (Spec.build_url build_type release build_page) = Ok resp ->
  Spec.fetchable resp ->
  Soup.find "h3" (Installer.header_of bundle_type ++ " Installers") (parsed resp)
    = Some header ->
  Soup.find_next_sibling header = None ->
  Installer.get_bundle_name E release build_type build_page bundle_type platform knime w
  = (log (EvGet (Spec.build_url build_type release build_page)) w, Raise AttributeError).
Proof.
  intros Hget Hst Hh Hs.
  rewrite (get_bundle_name_fetched _ _ _ _ _ _ _ _ _ Hget Hst). f_equal.
  unfold Installer.bundle_name_in. rewrite Hh, Hs. reflexivity.
Qed.

Lemma split_char_pieces (sep : ascii) (s : string) :
  Forall (fun piece => contains (String sep EmptyString) piece = false) (split_char sep s).
Proof.
  induction s as [| c r IH]; cbn [split_char].
  - repeat constructor.
  - destruct (Ascii.eqb c sep) eqn:Hc.
    + constructor; [reflexivity | exact IH].
    + assert (Hpre : forall t, String.prefix (String sep EmptyString) (String c t) = false).
      { intros t. cbn [String.prefix]. destruct (ascii_dec sep c) as [-> | _]; [| reflexivity].
        rewrite Ascii.eqb_refl in Hc. discriminate. }
      destruct (split_char sep r) as [| piece pieces].
      * repeat constructor. cbn [contains]. rewrite Hpre. reflexivity.
      * inversion IH as [| ? ? Hp Hps]; subst. constructor; [| exact Hps].
        cbn [contains]. rewrite Hpre. exact Hp.
Qed.

Lemma last_Forall {A} (P : A -> Prop) (l : list A) (d : A) :
  Forall P l -> P d -> P (List.last l d).
Proof.
  induction 1 as [| a [| b t] Ha Ht IH]; intros Hd; [exact Hd | exact Ha |].
  change (P (List.last (b :: t) d)). apply IH. exact Hd.
Qed.

Lemma split_char_nonempty (sep : ascii) (s : string) : split_char sep s <> [].
Proof.
  destruct s as [| c r]; cbn [split_char]; [discriminate |].
  destruct (Ascii.eqb c sep); [discriminate |].
  destruct (split_char sep r); discriminate.
Qed.

(** Splitting at a separator and joining with it gives the string back. *)
Lemma join_split_char (sep : ascii) (s : string) :
  join (String sep EmptyString) (split_char sep s) = s.
Proof.
  induction s as [| c r IH]; [reflexivity |]. cbn [split_char].
  pose proof (split_char_nonempty sep r) as Hne.
  destruct (Ascii.eqb c sep) eqn:Hc.
  - apply Ascii.eqb_eq in Hc. subst c.
    destruct (split_char sep r) as [| piece pieces]; [congruence |].
    change (join (String sep EmptyString) (EmptyString :: piece :: pieces))
      with (String sep (join (String sep EmptyString) (piece :: pieces))).
    rewrite IH. reflexivity.
  - destruct (split_char sep r) as [| piece pieces]; [congruence |].
    destruct pieces as [| piece' pieces'].
    + cbn [join] in *. rewrite IH. reflexivity.
    + change (join (String sep EmptyString) (String c piece :: piece' :: pieces'))
        with (String c (join (String sep EmptyString) (piece :: piece' :: pieces'))).
      rewrite IH. reflexivity.
Qed.

(** The name comes from a link of the section that passes the filter. *)
Lemma bundle_name_in_source (page : list Soup.node) bundle_type platform knime (name : string) :
  Installer.bundle_name_in page bundle_type platform knime = Ok (Some name) ->
  exists header section link href,
    Soup.find "h3" (Installer.header_of bundle_type ++ " Installers") page = Some header
    /\ Soup.find_next_sibling header = Some section
    /\ In link (Installer.matching_links (Installer.filter_of bundle_type platform) section)
    /\ Soup.getitem (fst link) "href" = Ok href
    /\ name = List.last (split_char "/" href) EmptyString.
Proof.
  unfold Installer.bundle_name_in.
  destruct (Soup.find _ _ page) as [header |] eqn:Hheader; [| discriminate].
  destruct (Soup.find_next_sibling header) as [section |] eqn:Hsection; [| discriminate].
  set (found := Installer.matching_links (Installer.filter_of bundle_type platform) section).
  destruct (Nat.eqb _ 0); [discriminate |].
  destruct (nth_error found 0) as [first |] eqn:Hfirst; [| discriminate].
  cbn [of_option rbind].
  assert (Hchosen : forall chosen,
            (if String.eqb platform "MacOSX" && negb knime
                && negb (String.eqb bundle_type "academic")
             then of_option IndexError (nth_error found 1)
             else Ok first) = Ok chosen -> In chosen found).
  { intros chosen. destruct (_ && _ && _).
    - destruct (nth_error found 1) as [second |] eqn:Hsecond; [| discriminate].
      intros H. inversion H. subst. apply (nth_error_In _ _ Hsecond).
    - intros H. inversion H. subst. apply (nth_error_In _ _ Hfirst). }
  match goal with
  | |- context [rbind (if ?c then ?a else ?b)] =>
      destruct (if c then a else b) as [chosen | e]; [| discriminate]
  end.
  cbn [rbind]. unfold Installer.installer_file_of.
  destruct (Soup.getitem (fst chosen) "href") as [href | e] eqn:Hhref; [| discriminate].
  cbn [rbind]. intros H. inversion H.
  exists header, section, chosen, href.
  split; [reflexivity |]. split; [exact Hsection |].
  split; [apply Hchosen; reflexivity |]. split; [exact Hhref | reflexivity].
Qed.

(** X3: a file name that the resolver returns is the last segment of a
    link target.  The link is one of those that pass the filter in the
    section after the header of the bundle type; its target is its
    segments joined by slashes; the name is the last of them, and holds
    no slash. *)
Theorem get_bundle_name_is_bare_name release build_type build_page bundle_type platform knime
    w (name : string) :
  snd (Installer.get_bundle_name E release build_type build_page bundle_type platform knime w)
    = Ok (Some name) ->
  exists resp header section link href before,
    requests_get E w (Spec.build_url build_type release build_page) = Ok resp
    /\ Soup.find "h3" (Installer.header_of bundle_type ++ " Installers") (parsed resp)
       = Some header
    /\ Soup.find_next_sibling header = Some section
    /\ In link (Installer.matching_links (Installer.filter_of bundle_type platform) section)
    /\ Soup.getitem (fst link) "href" = Ok href
    /\ split_char "/" href = (before ++ [name])%list
    /\ href = join "/" (before ++ [name])%list
    /\ contains "/" name = false.
Proof.
  unfold Installer.get_bundle_name, bind, OS.get, OS.raise_for_status, lift, raise, ret.
  fold (Spec.build_url build_type release build_page).
  destruct (requests_get E w _) as [resp | e]; [| discriminate].
  destruct ((400 <=? status_code resp)%Z && (status_code resp <? 600)%Z); [discriminate |].
  cbn [snd]. intros Hname.
  destruct (bundle_name_in_source _ _ _ _ _ Hname)
    as (header & section & link & href & Hh & Hs & Hin & Hhref & Hlast).
  exists resp, header, section, link, href, (removelast (split_char "/" href)).
  assert (Hsplit : split_char "/" href
                   = (removelast (split_char "/" href) ++ [name])%list).
  { rewrite Hlast. apply app_removelast_last. apply split_char_nonempty. }
  repeat split; try assumption.
  - rewrite <- Hsplit. symmetry. apply join_split_char.
  - rewrite Hlast. apply (last_Forall (fun piece => contains "/" piece = false)).
    + apply split_char_pieces.
    + reflexivity.
Qed.

End ResolverEdges.

(** X4: for a [desres] bundle the links are filtered by the [DESRES]
    marker alone, under the Academic header: off MacOSX the answer is
    the same for every platform and either value of the component flag. *)
Theorem desres_ignores_platform (page : list Soup.node)
    (bundle_type p1 p2 : string) (k1 k2 : bool) :
  lower bundle_type = "desres" ->
  p1 <> "MacOSX" -> p2 <> "MacOSX" ->
  Installer.bundle_name_in page bundle_type p1 k1
  = Installer.bundle_name_in page bundle_type p2 k2.
Proof.
  intros Hd H1 H2. unfold Installer.bundle_name_in, Installer.filter_of, Installer.header_of.
  rewrite Hd. apply String.eqb_neq in H1, H2. rewrite H1, H2. reflexivity.
Qed.

Lemma get_bundle_name_first_link_witness :
  let E := Demo.demo_env "linux" (Demo.catalog [("build-049", Demo.all_bundles)])
             Demo.no_process [] in
  Installer.get_bundle_name E "2024-2" "OB" "build-049" "general" "MacOSX" true Demo.w0
  = (log (EvGet (Spec.build_url "OB" "2024-2" "build-049")) Demo.w0,
     Ok (Some "Suite_2024-2_General_MacOSX_KNIME.dmg")).
Proof.
  intros E.
  etransitivity.
  - eapply (get_bundle_name_first_link E "2024-2" "OB" "build-049" "general" "MacOSX" true
              Demo.w0 (Demo.page 200 Demo.all_bundles)).
    + reflexivity.
    + left. reflexivity.
    + right. left. reflexivity.
    + reflexivity.
    + reflexivity.
    + reflexivity.
  - reflexivity.
Defined.

Lemma get_bundle_name_header_without_section_witness :
  let E := Demo.demo_env "linux" (Demo.catalog [("build-049", Demo.header_only_page)])
             Demo.no_process [] in
  Installer.get_bundle_name E "2024-2" "OB" "build-049" "general" "Linux" false Demo.w0
  = (log (EvGet (Spec.build_url "OB" "2024-2" "build-049")) Demo.w0, Raise AttributeError).
Proof.
  intros E.
  refine (get_bundle_name_header_without_section E "2024-2" "OB" "build-049" "general" "Linux"
            false Demo.w0 (Demo.page 200 Demo.header_only_page) _ _ _ _ _).
  - reflexivity.
  - left. reflexivity.
  - reflexivity.
  - reflexivity.
Defined.

Lemma get_bundle_name_is_bare_name_witness :
  let E := Demo.demo_env "linux" (Demo.catalog [("build-049", Demo.all_bundles)])
             Demo.no_process [] in
  exists resp header section link href before,
    requests_get E Demo.w0 (Spec.build_url "OB" "2024-2" "build-049") = Ok resp
    /\ Soup.find "h3" (Installer.header_of "academic" ++ " Installers") (parsed resp)
       = Some header
    /\ Soup.find_next_sibling header = Some section
    /\ In link (Installer.matching_links (Installer.filter_of "academic" "Linux") section)
    /\ Soup.getitem (fst link) "href" = Ok href
    /\ split_char "/" href = (before ++ ["Suite_2024-2_Academic_Linux-x86_64.tar"])%list
    /\ href = join "/" (before ++ ["Suite_2024-2_Academic_Linux-x86_64.tar"])%list
    /\ contains "/" "Suite_2024-2_Academic_Linux-x86_64.tar" = false.
Proof.
  intros E.
  apply (get_bundle_name_is_bare_name E "2024-2" "OB" "build-049" "academic" "Linux" false
           Demo.w0 "Suite_2024-2_Academic_Linux-x86_64.tar").
  reflexivity.
Defined.

Lemma desres_ignores_platform_witness :
  Installer.bundle_name_in Demo.desres_page "desres" "Linux" false
  = Installer.bundle_name_in Demo.desres_page "desres" "Windows" true
  /\ Installer.bundle_name_in Demo.desres_page "desres" "Linux" false
     = Ok (Some "Desmond_2024-2_Windows-x64_DESRES.zip").
Proof.
  split.
  - apply (desres_ignores_platform Demo.desres_page "desres" "Linux" "Windows" false true);
      [reflexivity | discriminate | discriminate].
  - reflexivity.
Defined.

(** ** More on the build locator *)

Section LocatorEdges.
Context (E : env).
Implicit Types (release build_type bundle_type platform : string) (knime : bool).
Implicit Types (w : world) (l builds pre post : list string).

(** The scan stops at the first build whose resolution is a truthy name
    or an exception; the builds after it are not requested. *)
Lemma scan_stops release build_type bundle_type platform knime pre b post
    (r : result (option string)) :
  (forall b' w1, In b' pre ->
     exists name,
       snd (Installer.get_bundle_name E release build_type b' bundle_type platform knime w1)
         = Ok name /\ truthy name = false) ->
  (forall w1,
     snd (Installer.get_bundle_name E release build_type b bundle_type platform knime w1) = r) ->
  match r with
  | Ok name => truthy name = true
  | Raise _ => True
  end ->
  forall st w,
    Installer.scan E release build_type bundle_type platform knime (pre ++ b :: post)%list st w
    = (logs (List.map (fun b' => EvGet (Spec.build_url build_type release b')) (pre ++ [b])%list) w,
       match r with
       | Ok name => Ok (Some (b, name))
       | Raise e => Raise e
       end).
Proof.
  intros Hpre Hb Hr. induction pre as [| a pre IH]; intros st w.
  - cbn [app Installer.scan List.map]. unfold bind.
    pose proof (get_bundle_name_world E release build_type b bundle_type platform knime w) as Hw.
    specialize (Hb w).
    destruct (Installer.get_bundle_name E release build_type b bundle_type platform knime w)
      as [w1 r1]. cbn [fst snd] in *. subst w1 r1.
    destruct r as [name | e]; [rewrite Hr |]; reflexivity.
  - cbn [app Installer.scan List.map]. unfold bind at 1.
    pose proof (get_bundle_name_world E release build_type a bundle_type platform knime w) as Hw.
    destruct (Hpre a w (or_introl eq_refl)) as (name & Hname & Hfalse).
    destruct (Installer.get_bundle_name E release build_type a bundle_type platform knime w)
      as [w1 r1]. cbn [fst snd] in *. subst w1 r1. rewrite Hfalse.
    rewrite IH by (intros b' w1 Hin; apply Hpre; right; exact Hin).
    rewrite logs_log. reflexivity.
Qed.

(** X5: the first build of the scan that has the bundle wins: when the
    builds before [b] resolve to nothing and [b] resolves to a name,
    [get_build_info] returns [b] with that name, and the only pages
    requested are the listing, the builds before [b] and [b]; no build
    after it is asked for. *)
Theorem get_build_info_first_match release build_type bundle_type knime w
    (resp : response) builds pre b post (name : string) :
  requests_get E w (Spec.listing_url build_type release) = Ok resp ->
  Installer.parse_builds (parsed resp) = Ok builds ->
  Installer.arrange builds = Ok (pre ++ b :: post)%list ->
  (forall b' w1, In b' pre ->
     exists n,
       snd (Installer.get_bundle_name E release build_type b' bundle_type
              (Installer.platform_name E) knime w1) = Ok n
       /\ truthy n = false) ->
  (forall w1,
     snd (Installer.get_bundle_name E release build_type b bundle_type
            (Installer.platform_name E) knime w1) = Ok (Some name)) ->
  name <> EmptyString ->
  Installer.get_build_info E release build_type bundle_type knime w
  = (logs (EvGet (Spec.listing_url build_type release)
             :: List.map (fun b' => EvGet (Spec.build_url build_type release b')) (pre ++ [b])%list)
          w,
     Ok (b, Some name)).
Proof.
  intros Hget Hparse Harr Hpre Hb Hname.
  rewrite (get_build_info_scan E _ _ _ _ _ _ _ _ Hget Hparse Harr).
  unfold bind.
  rewrite (scan_stops release build_type bundle_type (Installer.platform_name E) knime
             pre b post (Ok (Some name)) Hpre Hb).
  - rewrite logs_log. reflexivity.
  - destruct name; [congruence | reflexivity].
Qed.

(** X6: an exception of the resolver at one build ends the whole search:
    when the builds before [b] resolve to nothing and the resolution of
    [b] raises (an error status of its page, the [IndexError] of a
    single MacOSX link, ...), [get_build_info] raises the same exception
    and the older builds are never tried. *)
Theorem get_build_info_resolver_error_aborts release build_type bundle_type knime w
    (resp : response) builds pre b post (e : exn) :
  requests_get E w (Spec.listing_url build_type release) = Ok resp ->
  Installer.parse_builds (parsed resp) = Ok builds ->
  Installer.arrange builds = Ok (pre ++ b :: post)%list ->
  (forall b' w1, In b' pre ->
     exists n,
       snd (Installer.get_bundle_name E release build_type b' bundle_type
              (Installer.platform_name E) knime w1) = Ok n
       /\ truthy n = false) ->
  (forall w1,
     snd (Installer.get_bundle_name E release build_type b bundle_type
            (Installer.platform_name E) knime w1) = Raise e) ->
  Installer.get_build_info E release build_type bundle_type knime w
  = (logs (EvGet (Spec.listing_url build_type release)
             :: List.map (fun b' => EvGet (Spec.build_url build_type release b')) (pre ++ [b])%list)
          w,
     Raise e).
Proof.
  intros Hget Hparse Harr Hpre Hb.
  rewrite (get_build_info_scan E _ _ _ _ _ _ _ _ Hget Hparse Harr).
  unfold bind.
  rewrite (scan_stops release build_type bundle_type (Installer.platform_name E) knime
             pre b post (Raise e) Hpre Hb I).
  rewrite logs_log. reflexivity.
Qed.

End LocatorEdges.

Lemma hd_rev {A} (l : list A) (d : A) : List.hd d (List.rev l) = List.last l d.
Proof.
  rewrite <- (rev_involutive l) at 2. destruct (List.rev l) as [| x r]; [reflexivity |].
  cbn [List.rev List.hd]. rewrite last_last. reflexivity.
Qed.

Lemma last_rev {A} (l : list A) (d : A) : List.last (List.rev l) d = List.hd d l.
Proof. destruct l as [| x r]; [reflexivity |]. cbn [List.rev List.hd]. apply last_last. Qed.

(** X7: lines 443-444 never lose or add a build: when they succeed, the
    order of the scan is a permutation of the listing, and the scan does
    not start with a build older than the one it ends with. *)
Theorem arrange_keeps_builds (l order : list string) :
  Installer.arrange l = Ok order ->
  Permutation l order
  /\ (Spec.suffix_of (List.last order EmptyString)
      <= Spec.suffix_of (List.hd EmptyString order))%Z.
Proof.
  intros Harr.
  assert (Hne : l <> []) by (intros ->; discriminate Harr).
  unfold Installer.arrange in Harr.
  rewrite (last_map_Some l EmptyString Hne) in Harr. cbn [of_option rbind] in Harr.
  destruct (int (slice (List.last l EmptyString) 6 9)) as [a |] eqn:Ha; [| discriminate].
  cbn [rbind] in Harr.
  destruct l as [| x t]; [congruence |]. cbn [nth_error of_option rbind] in Harr.
  destruct (int (slice x 6 9)) as [b |] eqn:Hb; [| discriminate]. cbn [rbind] in Harr.
  assert (Hsa : Spec.suffix_of (List.last (x :: t) EmptyString) = a)
    by (unfold Spec.suffix_of, Spec.suffix; rewrite Ha; reflexivity).
  assert (Hsb : Spec.suffix_of x = b)
    by (unfold Spec.suffix_of, Spec.suffix; rewrite Hb; reflexivity).
  destruct (a >? b)%Z eqn:Hgt; inversion Harr; subst order; clear Harr.
  - split; [apply Permutation_rev |].
    change (List.rev t ++ [x])%list with (List.rev (x :: t)).
    rewrite last_rev, hd_rev. cbn [List.hd]. rewrite Hsa, Hsb.
    apply Z.gtb_lt in Hgt. lia.
  - split; [reflexivity |]. cbn [List.hd]. rewrite Hsa, Hsb.
    rewrite Z.gtb_ltb in Hgt. apply Z.ltb_ge in Hgt. exact Hgt.
Qed.

Lemma get_build_info_first_match_witness :
  let E := Demo.demo_env "linux"
             (Demo.catalog [("build-048", Demo.all_bundles); ("build-049", Demo.all_bundles);
                            ("build-050", Demo.general_only)])
             Demo.no_process [] in
  Installer.get_build_info E "2024-2" "OB" "academic" false Demo.w0
  = (logs [EvGet (Spec.listing_url "OB" "2024-2");
           EvGet (Spec.build_url "OB" "2024-2" "build-050");
           EvGet (Spec.build_url "OB" "2024-2" "build-049")] Demo.w0,
     Ok ("build-049", Some "Suite_2024-2_Academic_Linux-x86_64.tar")).
Proof.
  intros E.
  refine (get_build_info_first_match E "2024-2" "OB" "academic" false Demo.w0
            (Demo.page 200 (Demo.listing_page ["build-048"; "build-049"; "build-050"]))
            ["build-048"; "build-049"; "build-050"] ["build-050"] "build-049" ["build-048"]
            "Suite_2024-2_Academic_Linux-x86_64.tar" _ _ _ _ _ _).
  - reflexivity.
  - vm_compute. reflexivity.
  - vm_compute. reflexivity.
  - intros b' w1 [<- | []]. exists None. split; reflexivity.
  - intros w1. reflexivity.
  - discriminate.
Defined.

Lemma get_build_info_resolver_error_aborts_witness :
  let E := Demo.demo_env "darwin"
             (Demo.catalog [("build-050", Demo.all_bundles); ("build-049", Demo.all_bundles)])
             Demo.no_process [] in
  Installer.get_build_info E "2024-2" "OB" "advanced" false Demo.w0
  = (logs [EvGet (Spec.listing_url "OB" "2024-2");
           EvGet (Spec.build_url "OB" "2024-2" "build-050")] Demo.w0,
     Raise IndexError).
Proof.
  intros E.
  refine (get_build_info_resolver_error_aborts E "2024-2" "OB" "advanced" false Demo.w0
            (Demo.page 200 (Demo.listing_page ["build-050"; "build-049"]))
            ["build-050"; "build-049"] [] "build-050" ["build-049"] IndexError _ _ _ _ _).
  - reflexivity.
  - vm_compute. reflexivity.
  - vm_compute. reflexivity.
  - intros b' w1 [].
  - intros w1. reflexivity.
Defined.

Lemma arrange_keeps_builds_witness :
  Permutation ["build-002"; "build-005"; "build-003"] ["build-003"; "build-005"; "build-002"]
  /\ (Spec.suffix_of (List.last ["build-003"; "build-005"; "build-002"] EmptyString)
      <= Spec.suffix_of (List.hd EmptyString ["build-003"; "build-005"; "build-002"]))%Z.
Proof.
  apply (arrange_keeps_builds ["build-002"; "build-005"; "build-003"]
           ["build-003"; "build-005"; "build-002"]).
  reflexivity.
Defined.

(** ** The display form, on every string *)

Lemma get_smap (g : ascii -> ascii) (s : string) (n : nat) :
  String.get n (smap g s) = option_map g (String.get n s).
Proof.
  revert n. induction s as [| c r IH]; intros [| n]; cbn; try reflexivity. apply IH.
Qed.

Lemma length_smap (g : ascii -> ascii) (s : string) :
  String.length (smap g s) = String.length s.
Proof. induction s as [| c r IH]; cbn; [reflexivity | rewrite IH; reflexivity]. Qed.

Lemma get_lt (s : string) (n : nat) :
  (n < String.length s)%nat -> exists c, String.get n s = Some c.
Proof.
  revert n. induction s as [| a r IH]; intros n Hn; cbn in Hn; [lia |].
  destruct n as [| n]; [exists a; reflexivity |]. cbn. apply IH. lia.
Qed.

Lemma get_Some_lt (s : string) (n : nat) (c : ascii) :
  String.get n s = Some c -> (n < String.length s)%nat.
Proof.
  revert n. induction s as [| a r IH]; intros n; cbn; [discriminate |].
  destruct n as [| n]; [lia |]. intros H. apply IH in H. lia.
Qed.

Lemma substring_none (s : string) (i : nat) : String.substring i 0 s = EmptyString.
Proof.
  revert i. induction s as [| a r IH]; intros [| i]; cbn; try reflexivity. apply IH.
Qed.

Lemma substring_snoc (s : string) (i k : nat) (c : ascii) :
  String.get (i + k) s = Some c ->
  String.substring i (S k) s = String.substring i k s ++ String c EmptyString.
Proof.
  revert i k. induction s as [| a r IH]; intros i k H.
  - destruct i, k; discriminate H.
  - destruct i as [| i].
    + destruct k as [| k].
      * cbn in H. inversion H. cbn. rewrite substring_none. reflexivity.
      * cbn in H. cbn [String.substring]. rewrite (IH 0%nat k H). reflexivity.
    + cbn in H. cbn [String.substring]. apply IH. exact H.
Qed.

Lemma substring_all (s : string) : String.substring 0 (String.length s) s = s.
Proof. induction s as [| a r IH]; cbn; [reflexivity | rewrite IH; reflexivity]. Qed.

Lemma substring_drop (s : string) (n : nat) :
  String.substring n (String.length s - n) s = Py.drop n s.
Proof.
  revert n. induction s as [| a r IH]; intros [| n]; try reflexivity.
  - apply (substring_all (String a r)).
  - cbn [String.length Nat.sub String.substring Py.drop]. apply IH.
Qed.

Lemma append_empty_r (s : string) : s ++ EmptyString = s.
Proof.
  induction s as [| a r IH]; [reflexivity |].
  change (String a (r ++ EmptyString) = String a r). rewrite IH. reflexivity.
Qed.

Lemma append_assoc3 (a b c : string) : (a ++ b) ++ c = a ++ (b ++ c).
Proof.
  induction a as [| x r IH]; [reflexivity |].
  change (String x ((r ++ b) ++ c) = String x (r ++ (b ++ c))). rewrite IH. reflexivity.
Qed.

(** The loop of lines 394-396 copies every character but the one at
    index 6. *)
Lemma skip_sixth_loop (f : string) (n : nat) :
  (n <= String.length f)%nat ->
  fold_left
    (fun acc i =>
       let* formatted := acc in
       if negb (Nat.eqb i 6) then
         let* c := index f i in
         Ok (formatted ++ String c EmptyString)
       else Ok formatted)
    (seq 0 n) (Ok EmptyString)
  = Ok (String.substring 0 (Nat.min n 6) f ++ String.substring 7 (n - 7) f).
Proof.
  induction n as [| n IH]; intros Hn.
  - cbn [seq fold_left Nat.min Nat.sub]. rewrite !substring_none. reflexivity.
  - rewrite seq_S, fold_left_app, IH by lia. cbn [Nat.add fold_left rbind].
    destruct (get_lt f n ltac:(lia)) as [c Hc].
    destruct (Nat.eqb n 6) eqn:H6; cbn [negb].
    + apply Nat.eqb_eq in H6. subst n. reflexivity.
    + apply Nat.eqb_neq in H6. unfold index. rewrite Hc. cbn [of_option rbind]. f_equal.
      destruct (Nat.lt_ge_cases n 6) as [Hlt | Hge].
      * replace (Nat.min n 6) with n by lia. replace (Nat.min (S n) 6) with (S n) by lia.
        replace (n - 7)%nat with 0%nat by lia. replace (S n - 7)%nat with 0%nat by lia.
        rewrite !substring_none, !append_empty_r.
        symmetry. apply (substring_snoc f 0 n c). exact Hc.
      * replace (Nat.min n 6) with 6%nat by lia. replace (Nat.min (S n) 6) with 6%nat by lia.
        replace (S n - 7)%nat with (S (n - 7)) by lia.
        rewrite (substring_snoc f 7 (n - 7) c) by (replace (7 + (n - 7))%nat with n by lia; exact Hc).
        rewrite append_assoc3. reflexivity.
Qed.

(** What [int] makes of the character at index 6, after [capitalize] and
    [replace]: a digit keeps its value, anything else is refused. *)
Lemma int_sixth_char (c : ascii) :
  let c' := (if Ascii.eqb (to_lower c) "-" then " " else to_lower c)%char in
  int (String c' EmptyString)
  = if is_digit c then Ok (if Ascii.eqb c "0" then 0%Z else (code c - 48)%Z)
    else Raise ValueError.
Proof.
  destruct c as [[] [] [] [] [] [] [] []]; vm_compute; reflexivity.
Qed.

Lemma digit_value_zero (c : ascii) :
  is_digit c = true ->
  ((if Ascii.eqb c "0" then 0 else code c - 48) =? 0)%Z = Ascii.eqb c "0".
Proof.
  intros H. apply digit_cases in H. cbn [In] in H.
  repeat (destruct H as [<- | H]; [reflexivity |]). destruct H.
Qed.

(** X8: [format_buildID] on any string of ASCII characters.  It raises
    [IndexError] when the string has no character at index 6 and
    [ValueError] when that character is not a digit; otherwise the
    result is the string with its first letter in upper case, the others
    in lower case and every dash turned into a space, and with the
    character at index 6 left out when it is a zero. *)
Theorem format_buildID_general (build_id : string) :
  Spec.is_ascii build_id = true ->
  Installer.format_buildID build_id =
  let format1 := replace_char "-" " " (capitalize build_id) in
  match String.get 6 build_id with
  | None => Raise IndexError
  | Some c =>
      if is_digit c then
        Ok (if Ascii.eqb c "0"
            then String.substring 0 6 format1 ++ Py.drop 7 format1
            else format1)
      else Raise ValueError
  end.
Proof.
  intros _. cbv zeta. unfold Installer.format_buildID.
  set (format1 := replace_char "-" " " (capitalize build_id)).
  assert (Hlen : String.length format1 = String.length build_id).
  { unfold format1, replace_char. rewrite length_smap.
    destruct build_id as [| a r]; [reflexivity |]. cbn. rewrite length_smap. reflexivity. }
  assert (Hget : String.get 6 format1
                 = option_map (fun c => if Ascii.eqb (to_lower c) "-" then " " else to_lower c)%char
                     (String.get 6 build_id)).
  { unfold format1, replace_char. rewrite get_smap.
    destruct build_id as [| a r]; [reflexivity |].
    cbn [capitalize String.get]. change (6 - 1)%nat with 5%nat || idtac.
    cbn. rewrite get_smap. destruct (String.get 5 r); reflexivity. }
  unfold index at 1. rewrite Hget.
  destruct (String.get 6 build_id) as [c |] eqn:Hc; [| reflexivity].
  cbn [option_map of_option rbind].
  pose proof (int_sixth_char c) as Hint. cbv zeta in Hint. rewrite Hint.
  destruct (is_digit c) eqn:Hd; [| reflexivity].
  cbn [rbind]. rewrite (digit_value_zero c Hd).
  destruct (Ascii.eqb c "0") eqn:Hz.
  - rewrite (skip_sixth_loop format1 (String.length build_id)) by lia.
    cbn [rbind].
    apply get_Some_lt in Hc.
    replace (Nat.min (String.length build_id) 6) with 6%nat by lia.
    rewrite <- Hlen, substring_drop.
    destruct format1 as [| x rest]; [cbn in Hlen; lia |]. reflexivity.
  - reflexivity.
Qed.

Lemma format_buildID_general_witness :
  Installer.format_buildID "build-0A-b" = Ok "Build a b"
  /\ Installer.format_buildID "BUILD-142" = Ok "Build 142"
  /\ Installer.format_buildID "build-x42" = Raise ValueError
  /\ Installer.format_buildID "build" = Raise IndexError.
Proof.
  split; [| split; [| split]].
  - etransitivity; [apply (format_buildID_general "build-0A-b"); reflexivity | reflexivity].
  - etransitivity; [apply (format_buildID_general "BUILD-142"); reflexivity | reflexivity].
  - etransitivity; [apply (format_buildID_general "build-x42"); reflexivity | reflexivity].
  - etransitivity; [apply (format_buildID_general "build"); reflexivity | reflexivity].
Defined.

(** ** More on the download stage and the directories *)

Lemma concat_cons (x : string) (xs : list string) :
  String.concat EmptyString (x :: xs) = x ++ String.concat EmptyString xs.
Proof.
  destruct xs as [| y ys]; cbn [String.concat].
  - rewrite append_empty_r. reflexivity.
  - reflexivity.
Qed.

Section DownloadEdges.
Context (E : env).

Lemma write_chunks_appends (target : string) (total : Z) (cs : list string) :
  total <> 0%Z ->
  forall (c : string) (w : world),
    fs w !! target = Some (File c) ->
    exists w',
      Installer.write_chunks target total cs w = (w', Ok tt)
      /\ fs w' = <[target := File (c ++ String.concat EmptyString cs)]> (fs w).
Proof.
  intros Htotal. induction cs as [| chunk rest IH]; intros c w Hc.
  - exists w. split; [reflexivity |].
    cbn [String.concat]. rewrite append_empty_r. symmetry. apply insert_id. exact Hc.
  - cbn [Installer.write_chunks]. rewrite concat_cons.
    destruct (String.eqb chunk EmptyString) eqn:Hempty.
    + apply String.eqb_eq in Hempty. subst chunk. apply IH. exact Hc.
    + apply Z.eqb_neq in Htotal. rewrite Htotal. unfold bind at 1, ret at 1.
      unfold bind at 1, OS.write at 1. rewrite Hc.
      destruct (IH (c ++ chunk)
                  (log (EvWrite target chunk)
                     (set_fs (<[target := File (c ++ chunk)]> (fs w)) w)))
        as (w' & Hrun & Hfs).
      { cbn [fs log set_fs]. apply lookup_insert_eq. }
      exists w'. split; [exact Hrun |].
      rewrite Hfs. cbn [fs log set_fs]. rewrite insert_insert_eq, append_assoc3. reflexivity.
Qed.

Lemma write_chunks_zero_total (target : string) (cs : list string) (w : world) :
  (exists chunk, In chunk cs /\ chunk <> EmptyString) ->
  Installer.write_chunks target 0 cs w = (w, Raise ZeroDivisionError).
Proof.
  induction cs as [| chunk rest IH]; intros (x & Hin & Hx); [destruct Hin |].
  cbn [Installer.write_chunks].
  destruct (String.eqb chunk EmptyString) eqn:Hempty; [| reflexivity].
  apply String.eqb_eq in Hempty. subst chunk.
  apply IH. destruct Hin as [<- | Hin]; [congruence |]. exists x. split; assumption.
Qed.

(** The world in which the request of [download_file] is issued: the
    old file, if any, is gone. *)
Lemma download_file_request (url target : string) (w : world) (resp : response) :
  (forall dir_entry, fs w !! target = Some dir_entry -> dir_entry <> Dir) ->
  let w1 := if OS.exists_ target w
            then log (EvRemove target) (set_fs (delete target (fs w)) w) else w in
  requests_get E w1 url = Ok resp ->
  Spec.fetchable resp ->
  fs w1 !! target = None
  /\ Installer.download_file E url target w
     = (let! len := lift (of_option KeyError (content_length resp)) in
        let! total_size := lift (int len) in
        let! _ := OS.open_w target in
        Installer.write_chunks target total_size (chunks resp)) (log (EvGet url) w1).
Proof.
  intros Hnodir w1 Hget Hst.
  assert (Hprefix :
    (let! present := (fun w => (w, Ok (OS.exists_ target w))) in
     let! _ := (if present : bool then OS.remove target else ret tt) in
     ret tt) w = (w1, Ok tt) /\ fs w1 !! target = None).
  { unfold bind, ret, OS.exists_, OS.remove, w1, OS.exists_.
    destruct (fs w !! target) as [[old |] |] eqn:Hold.
    - rewrite Hold. split; [reflexivity |]. cbn [fs log set_fs]. apply lookup_delete_eq.
    - exfalso. apply (Hnodir Dir); reflexivity.
    - split; [reflexivity | exact Hold]. }
  destruct Hprefix as [Hprefix Hgone]. split; [exact Hgone |].
  unfold Installer.download_file.
  unfold bind at 1 2. unfold bind at 1 2 in Hprefix.
  destruct ((if OS.exists_ target w then OS.remove target else ret tt) w) as [w2 [[] | e]];
    unfold ret in Hprefix; inversion Hprefix; subst w2.
  unfold bind at 1, OS.get. rewrite Hget.
  unfold bind at 1. rewrite raise_for_status_ok by exact Hst. reflexivity.
Qed.

(** X9: a download that goes through.  When the target is a plain file
    name inside a directory that exists and is not itself a directory,
    the response has a passing status and a [Content-Length] of at most
    308 characters that parses to a number other than zero,
    [download_file] returns and the target holds the chunks of the
    response, one after the other; what the file held before is lost and
    no other path changes. *)
Theorem download_file_writes_payload (url target len : string) (total : Z) (w : world)
    (resp : response) :
  Spec.inside_directory E w target ->
  (forall dir_entry, fs w !! target = Some dir_entry -> dir_entry <> Dir) ->
  requests_get E
    (if OS.exists_ target w
     then log (EvRemove target) (set_fs (delete target (fs w)) w) else w) url = Ok resp ->
  Spec.fetchable resp ->
  content_length resp = Some len -> (String.length len <= 308)%nat ->
  int len = Ok total -> total <> 0%Z ->
  exists w',
    Installer.download_file E url target w = (w', Ok tt)
    /\ fs w' = <[target := File (String.concat EmptyString (chunks resp))]> (fs w).
Proof.
  intros _ Hnodir Hget Hst Hlen _ Hint Htotal.
  destruct (download_file_request url target w resp Hnodir Hget Hst) as [Hgone Hrun].
  rewrite Hrun. clear Hrun.
  set (w1 := if OS.exists_ target w
             then log (EvRemove target) (set_fs (delete target (fs w)) w) else w) in *.
  unfold bind at 1, lift. rewrite Hlen. cbn [of_option].
  unfold bind at 1. rewrite Hint.
  unfold bind at 1, OS.open_w. cbn [fs log]. rewrite Hgone.
  destruct (write_chunks_appends target total (chunks resp) Htotal EmptyString
              (log (EvOpenW target)
                 (set_fs (<[target := File EmptyString]> (fs (log (EvGet url) w1)))
                    (log (EvGet url) w1))))
    as (w' & Hw & Hfs).
  { cbn [fs log set_fs]. apply lookup_insert_eq. }
  exists w'. split; [exact Hw |].
  rewrite Hfs. cbn [fs log set_fs]. rewrite insert_insert_eq.
  change (EmptyString ++ String.concat EmptyString (chunks resp))
    with (String.concat EmptyString (chunks resp)).
  unfold w1, OS.exists_. destruct (fs w !! target) eqn:Hold; cbn [fs log set_fs].
  - apply insert_delete_eq.
  - reflexivity.
Qed.

(** X10: a response without a [Content-Length] header makes
    [download_file] raise [KeyError] after the old file was removed and
    before a new one is opened: nothing is left at the target. *)
Theorem download_file_missing_length (url target : string) (w : world) (resp : response) :
  (forall dir_entry, fs w !! target = Some dir_entry -> dir_entry <> Dir) ->
  requests_get E
    (if OS.exists_ target w
     then log (EvRemove target) (set_fs (delete target (fs w)) w) else w) url = Ok resp ->
  Spec.fetchable resp ->
  content_length resp = None ->
  snd (Installer.download_file E url target w) = Raise KeyError
  /\ fs (fst (Installer.download_file E url target w)) !! target = None.
Proof.
  intros Hnodir Hget Hst Hlen.
  destruct (download_file_request url target w resp Hnodir Hget Hst) as [Hgone Hrun].
  set (w1 := if OS.exists_ target w
             then log (EvRemove target) (set_fs (delete target (fs w)) w) else w) in *.
  assert (Heq : Installer.download_file E url target w = (log (EvGet url) w1, Raise KeyError)).
  { rewrite Hrun. unfold bind at 1, lift. rewrite Hlen. reflexivity. }
  rewrite Heq. cbn [fst snd fs log]. split; [reflexivity | exact Hgone].
Qed.

(** X11: a [Content-Length] of zero with data in the body makes the
    progress computation of line 271 divide by zero.  When the target is
    a plain file name inside a directory that exists, [download_file]
    raises [ZeroDivisionError] at the first chunk that is not empty, and
    the target is left as an empty file. *)
Theorem download_file_zero_length (url target len : string) (w : world) (resp : response) :
  Spec.inside_directory E w target ->
  (forall dir_entry, fs w !! target = Some dir_entry -> dir_entry <> Dir) ->
  requests_get E
    (if OS.exists_ target w
     then log (EvRemove target) (set_fs (delete target (fs w)) w) else w) url = Ok resp ->
  Spec.fetchable resp ->
  content_length resp = Some len -> (String.length len <= 308)%nat ->
  int len = Ok 0%Z ->
  (exists chunk, In chunk (chunks resp) /\ chunk <> EmptyString) ->
  snd (Installer.download_file E url target w) = Raise ZeroDivisionError
  /\ fs (fst (Installer.download_file E url target w)) !! target = Some (File EmptyString).
Proof.
  intros _ Hnodir Hget Hst Hlen _ Hint Hdata.
  destruct (download_file_request url target w resp Hnodir Hget Hst) as [Hgone Hrun].
  set (w1 := if OS.exists_ target w
             then log (EvRemove target) (set_fs (delete target (fs w)) w) else w) in *.
  assert (Heq : Installer.download_file E url target w
                = (log (EvOpenW target)
                     (set_fs (<[target := File EmptyString]> (fs w1)) (log (EvGet url) w1)),
                   Raise ZeroDivisionError)).
  { rewrite Hrun. unfold bind at 1, lift. rewrite Hlen. cbn [of_option].
    unfold bind at 1. rewrite Hint.
    unfold bind at 1, OS.open_w. cbn [fs log]. rewrite Hgone.
    rewrite (write_chunks_zero_total target (chunks resp) _ Hdata). reflexivity. }
  rewrite Heq. cbn [fst snd fs log set_fs]. split; [reflexivity | apply lookup_insert_eq].
Qed.

End DownloadEdges.

Section Directories.
Context (E : env).

(** X12: [create_clean_dirs] on a path that is taken.  On a regular
    file it raises [NotADirectoryError] and changes nothing.  On a
    directory it returns after a removal and a creation: the path is a
    directory again, every path below it is gone, and no other path has
    changed. *)
Theorem create_clean_dirs_fresh (dir : string) (w : world) :
  (forall c, fs w !! dir = Some (File c) ->
     Installer.create_clean_dirs E dir w = (w, Raise NotADirectoryError))
  /\ (fs w !! dir = Some Dir ->
      exists w',
        Installer.create_clean_dirs E dir w = (w', Ok tt)
        /\ trace w' = (trace w ++ [EvRmtree dir; EvMkdir dir])%list
        /\ fs w' !! dir = Some Dir
        /\ forall k, k <> dir ->
             fs w' !! k
             = if OS.below (OS.startswith E "win32") dir k then None else fs w !! k).
Proof.
  unfold Installer.create_clean_dirs, bind, OS.exists_, OS.rmtree, OS.mkdir_parents.
  split.
  - intros c Hdir. rewrite Hdir. cbn beta iota. rewrite Hdir. reflexivity.
  - intros Hdir. rewrite Hdir. cbn beta iota. rewrite Hdir.
    cbn [fs log set_fs]. rewrite remove_tree_root.
    eexists. split; [reflexivity |]. cbn [fs trace log set_fs].
    split; [rewrite <- app_assoc; reflexivity |].
    split; [apply lookup_insert_eq |].
    intros k Hk. rewrite lookup_insert_ne by congruence. apply remove_tree_lookup.
Qed.

(** X13: off Windows, [uninstall] touches the installation tree and
    nothing else.  On a path that does not exist it does nothing and
    raises nothing; on a regular file it raises [NotADirectoryError] and
    changes nothing; on a directory it removes the directory and every
    path below it, that is, after the directory and a slash, and leaves
    every other path as it was. *)
Theorem uninstall_only_the_tree (release dir : string) (w : world) :
  OS.startswith E "win32" = false ->
  (fs w !! dir = None -> Installer.uninstall E release dir w = (w, Ok tt))
  /\ (forall c, fs w !! dir = Some (File c) ->
        Installer.uninstall E release dir w = (w, Raise NotADirectoryError))
  /\ (fs w !! dir = Some Dir ->
      exists w',
        Installer.uninstall E release dir w = (w', Ok tt)
        /\ trace w' = (trace w ++ [EvRmtree dir])%list
        /\ forall k,
             fs w' !! k
             = if String.eqb k dir || String.prefix (dir ++ "/") k then None
               else fs w !! k).
Proof.
  intros Hwin. unfold Installer.uninstall. rewrite Hwin.
  unfold bind, ret, OS.exists_, OS.rmtree. rewrite Hwin.
  split; [| split].
  - intros Hdir. rewrite Hdir. reflexivity.
  - intros c Hdir. rewrite Hdir. cbn beta iota. rewrite Hdir. reflexivity.
  - intros Hdir. rewrite Hdir. cbn beta iota. rewrite Hdir.
    eexists. split; [reflexivity |]. split; [reflexivity |].
    intros k. cbn [fs log set_fs]. rewrite remove_tree_lookup. unfold OS.below.
    cbn [andb]. rewrite orb_false_r. reflexivity.
Qed.

End Directories.

Lemma download_file_writes_payload_witness :
  let E := Demo.demo_env "linux"
             [("http://host/Suite.tar", Demo.payload (Some "11") ["hello "; EmptyString; "world"])]
             Demo.no_process [] in
  exists w',
    Installer.download_file E "http://host/Suite.tar" "/dl/Suite.tar" Demo.download_dir
      = (w', Ok tt)
    /\ fs w' = <["/dl/Suite.tar" := File "hello world"]> (fs Demo.download_dir).
Proof.
  intros E.
  apply (download_file_writes_payload E "http://host/Suite.tar" "/dl/Suite.tar" "11" 11
           Demo.download_dir (Demo.payload (Some "11") ["hello "; EmptyString; "world"])).
  - exists "/dl", "Suite.tar". split; [left; reflexivity |]. split; reflexivity.
  - intros d H. vm_compute in H. inversion H. discriminate.
  - reflexivity.
  - left. reflexivity.
  - reflexivity.
  - vm_compute. lia.
  - reflexivity.
  - discriminate.
Defined.

Lemma download_file_missing_length_witness :
  let E := Demo.demo_env "linux" [("http://host/Suite.tar", Demo.payload None ["data"])]
             Demo.no_process [] in
  snd (Installer.download_file E "http://host/Suite.tar" "/dl/Suite.tar" Demo.old_download)
    = Raise KeyError
  /\ fs (fst (Installer.download_file E "http://host/Suite.tar" "/dl/Suite.tar"
                Demo.old_download)) !! "/dl/Suite.tar" = None.
Proof.
  intros E.
  apply (download_file_missing_length E "http://host/Suite.tar" "/dl/Suite.tar"
           Demo.old_download (Demo.payload None ["data"])).
  - intros d H. vm_compute in H. inversion H. discriminate.
  - reflexivity.
  - left. reflexivity.
  - reflexivity.
Defined.

Lemma download_file_zero_length_witness :
  let E := Demo.demo_env "linux" [("http://host/Suite.tar", Demo.payload (Some "0") ["data"])]
             Demo.no_process [] in
  snd (Installer.download_file E "http://host/Suite.tar" "/dl/Suite.tar" Demo.download_dir)
    = Raise ZeroDivisionError
  /\ fs (fst (Installer.download_file E "http://host/Suite.tar" "/dl/Suite.tar"
                Demo.download_dir)) !! "/dl/Suite.tar" = Some (File EmptyString).
Proof.
  intros E.
  apply (download_file_zero_length E "http://host/Suite.tar" "/dl/Suite.tar" "0"
           Demo.download_dir (Demo.payload (Some "0") ["data"])).
  - exists "/dl", "Suite.tar". split; [left; reflexivity |]. split; reflexivity.
  - intros d H. vm_compute in H. inversion H. discriminate.
  - reflexivity.
  - left. reflexivity.
  - reflexivity.
  - vm_compute. lia.
  - reflexivity.
  - exists "data". split; [left; reflexivity | discriminate].
Defined.

Lemma create_clean_dirs_fresh_witness :
  let E := Demo.demo_env "linux" [] Demo.no_process [] in
  exists w',
    Installer.create_clean_dirs E "/scr/LBI/suites2024-2" Demo.installed_049 = (w', Ok tt)
    /\ trace w'
       = (trace Demo.installed_049
            ++ [EvRmtree "/scr/LBI/suites2024-2"; EvMkdir "/scr/LBI/suites2024-2"])%list
    /\ fs w' !! "/scr/LBI/suites2024-2" = Some Dir
    /\ forall k, k <> "/scr/LBI/suites2024-2" ->
         fs w' !! k
         = if OS.below (OS.startswith E "win32") "/scr/LBI/suites2024-2" k then None
           else fs Demo.installed_049 !! k.
Proof.
  intros E.
  apply (proj2 (create_clean_dirs_fresh E "/scr/LBI/suites2024-2" Demo.installed_049)).
  reflexivity.
Defined.

Lemma uninstall_only_the_tree_witness :
  let E := Demo.demo_env "linux" [] Demo.no_process [] in
  Installer.uninstall E "2024-2" "/scr/LBI/suites2024-2" Demo.w0 = (Demo.w0, Ok tt)
  /\ exists w',
       Installer.uninstall E "2024-2" "/scr/LBI/suites2024-2" Demo.installed_049 = (w', Ok tt)
       /\ trace w' = (trace Demo.installed_049 ++ [EvRmtree "/scr/LBI/suites2024-2"])%list
       /\ forall k,
            fs w' !! k
            = if String.eqb k "/scr/LBI/suites2024-2"
                 || String.prefix ("/scr/LBI/suites2024-2" ++ "/") k
              then None
              else fs Demo.installed_049 !! k.
Proof.
  intros E.
  split.
  - apply (proj1 (uninstall_only_the_tree E "2024-2" "/scr/LBI/suites2024-2" Demo.w0
                    eq_refl)).
    reflexivity.
  - apply (proj2 (proj2 (uninstall_only_the_tree E "2024-2" "/scr/LBI/suites2024-2"
                           Demo.installed_049 eq_refl))).
    reflexivity.
Defined.

(** ** More on the extraction and the installation *)

Lemma bind_Ok_inv {A B} (m : M A) (k : A -> M B) (w w' : world) (b : B) :
  bind m k w = (w', Ok b) -> exists w1 a, m w = (w1, Ok a) /\ k a w1 = (w', Ok b).
Proof.
  unfold bind. destruct (m w) as [w1 [a | e]]; [| discriminate].
  intros H. exists w1, a. split; [reflexivity | exact H].
Qed.

Lemma finally_Ok_inv {A} (body : M A) (cleanup : M unit) (w w' : world) (a : A) :
  finally body cleanup w = (w', Ok a) ->
  exists w1, body w = (w1, Ok a) /\ cleanup w1 = (w', Ok tt).
Proof.
  unfold finally. destruct (body w) as [w1 r].
  destruct (cleanup w1) as [w2 [[] | e]] eqn:Hc; [| discriminate].
  intros H. inversion H. subst. exists w1. split; [reflexivity | exact Hc].
Qed.

Lemma rmtree_Ok (E : env) (p : string) (w w' : world) :
  OS.rmtree E p w = (w', Ok tt) -> fs w' !! p = None.
Proof.
  unfold OS.rmtree. destruct (fs w !! p) as [[c |] |]; try discriminate.
  intros H. inversion H. cbn [fs log set_fs]. apply remove_tree_root.
Qed.

Section ExtractionEdges.
Context (E : env).

(** X14: a mount that fails runs nothing else.  When [hdiutil attach]
    cannot be started or exits with an error, [mount_dmg] raises that
    failure; when it succeeds and its output names no mount point under
    /Volumes/dmg., [mount_dmg] raises [RuntimeError].  In each case the
    body of the [with] is not run and no [hdiutil detach] is issued: in
    the last case the image stays attached. *)
Theorem mount_dmg_failed_mount {A} (dmg_path : string) (body : string -> M A) (w : world)
    (fs1 : gmap string entry) (out : result (Z * string)) :
  String.prefix "darwin" (sys_platform E) = true ->
  run_process E (Installer.attach_cmd dmg_path) None
    (log (EvRun (Installer.attach_cmd dmg_path) None) w) = (fs1, out) ->
  match out with
  | Ok (rc, output) => rc <> 0%Z \/ search_lit_word "/Volumes/dmg." output = None
  | Raise _ => True
  end ->
  Installer.mount_dmg E dmg_path body w
  = (mkWorld fs1 (trace w ++ [EvRun (Installer.attach_cmd dmg_path) None]) (clock w),
     match out with
     | Raise e => Raise e
     | Ok (rc, _) => if (rc =? 0)%Z then Raise RuntimeError else Raise CalledProcessError
     end).
Proof.
  intros Hd Hattach Hfail.
  unfold Installer.mount_dmg, OS.startswith. rewrite Hd. cbn [negb]. cbv zeta.
  unfold bind at 1, OS.check_output, bind at 1. rewrite subprocess_run_eq, Hattach.
  cbn [fst snd].
  destruct out as [[rc output] | e]; [| reflexivity].
  cbn [fst snd]. destruct (rc =? 0)%Z eqn:Hrc.
  - destruct Hfail as [Hne | Hnone]; [apply Z.eqb_eq in Hrc; contradiction |].
    unfold ret. rewrite Hnone. reflexivity.
  - reflexivity.
Qed.

Lemma flatten_Ok (bundle_path destination : string) (w w' : world) :
  Installer.flatten E bundle_path destination w = (w', Ok tt) ->
  fs w' !! os_path_join E destination
             (fst (os_path_splitext E (os_path_basename E bundle_path))) = None.
Proof.
  unfold Installer.flatten. cbv zeta. intros H.
  apply finally_Ok_inv in H. destruct H as (w1 & _ & Hrm).
  apply rmtree_Ok in Hrm. exact Hrm.
Qed.

(** X15: on Windows and Linux, when [extract_bundle] returns, the
    sub-directory that the archive unpacked into (the bundle name
    without its extension, under the destination) no longer exists. *)
Theorem extract_bundle_removes_subdir (bundle_path destination : string) (w w' : world) :
  OS.startswith E "win32" = true \/ OS.startswith E "linux" = true ->
  Installer.extract_bundle E bundle_path destination w = (w', Ok tt) ->
  fs w' !! os_path_join E destination
             (fst (os_path_splitext E (os_path_basename E bundle_path))) = None.
Proof.
  intros Hplat. unfold Installer.extract_bundle.
  destruct (OS.startswith E "win32") eqn:Hwin.
  - intros H. apply bind_Ok_inv in H. destruct H as (w1 & [] & _ & Hflat).
    apply flatten_Ok in Hflat. exact Hflat.
  - destruct Hplat as [Hw | Hl]; [discriminate |]. rewrite Hl.
    intros H. apply bind_Ok_inv in H. destruct H as (w1 & [] & _ & Hflat).
    apply flatten_Ok in Hflat. exact Hflat.
Qed.

(** X16: when [install_schrodinger_bundle] returns, its working
    directory [install_tmpdir] under the installation directory is gone. *)
Theorem install_schrodinger_bundle_removes_tmpdir (release bundle_installer
    local_install_dir : string) (w w' : world) :
  Installer.install_schrodinger_bundle E release bundle_installer local_install_dir w
    = (w', Ok tt) ->
  fs w' !! os_path_join E local_install_dir "install_tmpdir" = None.
Proof.
  unfold Installer.install_schrodinger_bundle. cbv zeta. intros H.
  apply bind_Ok_inv in H. destruct H as (w1 & [] & _ & H).
  apply bind_Ok_inv in H. destruct H as (w2 & [] & _ & H).
  apply bind_Ok_inv in H. destruct H as (w3 & [] & _ & H).
  apply rmtree_Ok in H. exact H.
Qed.

End ExtractionEdges.

Lemma mount_dmg_failed_mount_witness :
  let E := Demo.demo_env "darwin" [] Demo.silent_attach [] in
  Installer.extract_bundle E "/dl/Suite.dmg" "/opt/tmp" Demo.w0
  = (mkWorld ∅ [EvRun (Installer.attach_cmd "/dl/Suite.dmg") None] 0, Raise RuntimeError).
Proof.
  intros E.
  apply (mount_dmg_failed_mount E "/dl/Suite.dmg"
           (Installer.xar_extract E "/dl/Suite.dmg" "/opt/tmp") Demo.w0 ∅
           (Ok (0%Z, "/dev/disk4s1  Apple_HFS  /Volumes/Suite"))).
  - reflexivity.
  - reflexivity.
  - right. reflexivity.
Defined.

Lemma extract_bundle_removes_subdir_witness :
  let E := Demo.unpacking_env [] in
  fs (fst (Installer.extract_bundle E "/dl/Suite.tar" "/opt/tmp" Demo.w0))
    !! "/opt/tmp/Suite" = None.
Proof.
  intros E.
  apply (extract_bundle_removes_subdir E "/dl/Suite.tar" "/opt/tmp" Demo.w0
           (fst (Installer.extract_bundle E "/dl/Suite.tar" "/opt/tmp" Demo.w0))).
  - right. reflexivity.
  - vm_compute. reflexivity.
Defined.

Lemma install_schrodinger_bundle_removes_tmpdir_witness :
  let E := Demo.unpacking_env [] in
  let w := mkWorld {[ "/scr/LBI/suites2024-2" := Dir ]} [] 0 in
  fs (fst (Installer.install_schrodinger_bundle E "2024-2" "/dl/Suite.tar"
             "/scr/LBI/suites2024-2" w))
    !! "/scr/LBI/suites2024-2/install_tmpdir" = None.
Proof.
  intros E w.
  apply (install_schrodinger_bundle_removes_tmpdir E "2024-2" "/dl/Suite.tar"
           "/scr/LBI/suites2024-2" w
           (fst (Installer.install_schrodinger_bundle E "2024-2" "/dl/Suite.tar"
                   "/scr/LBI/suites2024-2" w))).
  vm_compute. reflexivity.
Defined.

Section HostsAndLicense.
Context (E : env).



End HostsAndLicense.



(** ** More on [main] and the release oracle *)

Section MainEdges.
Context (E : env).

(** X19: on a platform that is neither win32, darwin nor linux, and
    without an installation directory given, [main] first locates the
    build over the network and then raises [UnboundLocalError]: no
    default installation directory is bound (lines 767-786).  Nothing is
    downloaded or installed. *)
Theorem main_unknown_platform (bundle_type build_type release : string)
    (knime download_only : bool) (download_dest install_dest : option string)
    (token_path : string) (w w1 : world) (latest_build bundle_name : string) :
  release <> EmptyString ->
  OS.startswith E "win32" = false ->
  OS.startswith E "darwin" = false ->
  OS.startswith E "linux" = false ->
  truthy install_dest = false ->
  Installer.get_build_info E release build_type bundle_type knime w
    = (w1, Ok (latest_build, Some bundle_name)) ->
  Installer.main E bundle_type build_type (Some release) knime download_only
    download_dest install_dest token_path w
  = (w1, Raise UnboundLocalError).
Proof.
  intros Hrel Hwin Hdar Hlin Hdest Hinfo.
  unfold Installer.main.
  destruct release as [| c r]; [congruence |]. cbn [truthy negb].
  rewrite (bind_ok _ _ w w (Some (String c r))) by reflexivity.
  rewrite (bind_ok _ _ _ _ _ Hinfo).
  rewrite Hwin, Hdar, Hlin. unfold bind, ret. rewrite Hdest. reflexivity.
Qed.

(** X20: the release of the oracle is that of the first event: with the
    credentials in hand, [get_current_release] asks the calendar for the
    events between the current time and 9072000 seconds (fifteen weeks)
    later, and returns "20" followed by the first four characters of the
    title of the first event; the events after it play no part. *)
Theorem get_current_release_first_event (token_path title : string) (w w1 : world)
    (c : creds) (first : cal_event) (others : list cal_event) :
  Installer.obtain_creds E token_path w = (w1, Ok c) ->
  calendar_list E c (clock w1) (clock w1 + 9072000) w1 = Ok (first :: others) ->
  summary first = Some title ->
  Installer.get_current_release E token_path w
  = (w1, Ok (Some ("20" ++ slice title 0 4))).
Proof.
  intros Hc Hcal Htitle.
  unfold Installer.get_current_release. rewrite (bind_ok _ _ _ _ _ Hc).
  unfold bind at 1, Installer.release_targets, bind, OS.now.
  change (Installer.weeks 15) with 9072000%Z. rewrite Hcal.
  unfold lift. cbn [nth_error of_option]. rewrite Htitle. reflexivity.
Qed.

(** X21: [get_release.py] prints the first four characters of the title
    of the first event, without the "20" that the installer puts in
    front, and returns nothing. *)
Theorem get_release_prints_first_event (title : string) (w w1 : world)
    (c : creds) (first : cal_event) (others : list cal_event) :
  Installer.obtain_creds E
    (os_path_join E (expanduser_home E) ".custom_commands/get_release/token.pickle") w
    = (w1, Ok c) ->
  calendar_list E c (clock w1) (clock w1 + 9072000) w1 = Ok (first :: others) ->
  summary first = Some title ->
  GetRelease.get_current_release E w = (log (EvPrint (slice title 0 4)) w1, Ok tt).
Proof.
  intros Hc Hcal Htitle.
  unfold GetRelease.get_current_release. cbv zeta. rewrite (bind_ok _ _ _ _ _ Hc).
  unfold bind at 1, Installer.release_targets, bind, OS.now.
  change (Installer.weeks 15) with 9072000%Z. rewrite Hcal.
  unfold lift. cbn [nth_error of_option]. rewrite Htitle. reflexivity.
Qed.

(** X22: the stored token.  A token file holding valid credentials is
    used as it is: nothing is written and nobody is asked to log in.
    Without a token file and without [credentials.json] in the working
    directory, the lookup raises [FileNotFoundError] and changes
    nothing. *)
Theorem obtain_creds_without_login (token_path : string) (w : world) :
  (forall content c,
     fs w !! token_path = Some (File content) ->
     pickle_load E content = Ok c -> valid c = true ->
     Installer.obtain_creds E token_path w = (w, Ok c))
  /\ (fs w !! token_path = None ->
      OS.isfile (os_path_join E (getcwd E) "credentials.json") w = false ->
      Installer.obtain_creds E token_path w = (w, Raise FileNotFoundError)).
Proof.
  split.
  - intros content c Htok Hload Hvalid.
    unfold Installer.obtain_creds, bind, ret, lift, OS.exists_, OS.read.
    rewrite Htok. cbn beta iota. rewrite Htok. cbn beta iota.
    rewrite Hload. cbn beta iota. rewrite Hvalid. reflexivity.
  - intros Htok Hcred.
    unfold Installer.obtain_creds, Installer.login, bind, ret, OS.exists_.
    rewrite Htok. cbn beta iota. rewrite Hcred. reflexivity.
Qed.

End MainEdges.

Lemma main_unknown_platform_witness :
  let E := Demo.demo_env "freebsd13"
             (Demo.catalog [("build-049", Demo.all_bundles)]) Demo.no_process [] in
  Installer.main E "academic" "OB" (Some "2024-2") false false None None "token.pickle" Demo.w0
  = (logs [EvGet (Spec.listing_url "OB" "2024-2");
           EvGet (Spec.build_url "OB" "2024-2" "build-049")] Demo.w0,
     Raise UnboundLocalError).
Proof.
  intros E.
  apply (main_unknown_platform E "academic" "OB" "2024-2" false false None None "token.pickle"
           Demo.w0 _ "build-049" "Suite_2024-2_Academic_Linux-x86_64.tar").
  - discriminate.
  - reflexivity.
  - reflexivity.
  - reflexivity.
  - reflexivity.
  - vm_compute. reflexivity.
Defined.

Lemma get_current_release_first_event_witness :
  let E := Demo.demo_env "linux" [] Demo.no_process
             [mkCalEvent (Some "24-3 Release Target"); mkCalEvent (Some "24-4 Release Target")] in
  let w := mkWorld {[ "token.pickle" := File "token" ]} [] 1714521600 in
  Installer.get_current_release E "token.pickle" w = (w, Ok (Some "2024-3")).
Proof.
  intros E w.
  apply (get_current_release_first_event E "token.pickle" "24-3 Release Target" w w
           (mkCreds true false false) (mkCalEvent (Some "24-3 Release Target"))
           [mkCalEvent (Some "24-4 Release Target")]); reflexivity.
Defined.

Lemma get_release_prints_first_event_witness :
  let E := Demo.demo_env "linux" [] Demo.no_process
             [mkCalEvent (Some "24-3 Release Target"); mkCalEvent (Some "24-4 Release Target")] in
  let w := mkWorld {[ "/home/user/.custom_commands/get_release/token.pickle" := File "token" ]}
             [] 1714521600 in
  GetRelease.get_current_release E w = (log (EvPrint "24-3") w, Ok tt).
Proof.
  intros E w.
  apply (get_release_prints_first_event E "24-3 Release Target" w w
           (mkCreds true false false) (mkCalEvent (Some "24-3 Release Target"))
           [mkCalEvent (Some "24-4 Release Target")]); reflexivity.
Defined.

Lemma obtain_creds_without_login_witness :
  let E := Demo.demo_env "linux" [] Demo.no_process [] in
  let w := mkWorld {[ "token.pickle" := File "token" ]} [] 0 in
  Installer.obtain_creds E "token.pickle" w = (w, Ok (mkCreds true false false))
  /\ Installer.obtain_creds E "token.pickle" Demo.w0 = (Demo.w0, Raise FileNotFoundError).
Proof.
  intros E w. split.
  - apply (proj1 (obtain_creds_without_login E "token.pickle" w) "token"); reflexivity.
  - apply (proj2 (obtain_creds_without_login E "token.pickle" Demo.w0)); reflexivity.
Defined.

(** ** The command line *)

Lemma quarter_cases (q : ascii) :
  (49 <=? code q)%Z && (code q <=? 52)%Z = true -> In q ["1"; "2"; "3"; "4"]%char.
Proof.
  destruct q as [[] [] [] [] [] [] [] []]; vm_compute; intros H;
    try discriminate H; tauto.
Qed.

Lemma at_end_cases (s : string) :
  Args.at_end s = true -> s = EmptyString \/ s = String (ascii_of_nat 10) EmptyString.
Proof.
  unfold Args.at_end. intros H. apply orb_true_iff in H.
  destruct H as [H | H]; apply String.eqb_eq in H; auto.
Qed.

(** The strings that the pattern of the release accepts. *)
Lemma release_ok_shape (r : string) :
  Args.release_ok r = true ->
  exists d q tail,
    is_digit d = true /\ In q ["1"; "2"; "3"; "4"]%char
    /\ (tail = EmptyString \/ tail = String (ascii_of_nat 10) EmptyString)
    /\ r = String "2" (String d (String "-" (String q tail))).
Proof.
  destruct r as [| a [| b [| c [| q tail]]]]; try discriminate.
  cbn [Args.release_ok]. intros H.
  apply andb_true_iff in H. destruct H as [H Hend].
  apply andb_true_iff in H. destruct H as [H Hq].
  apply andb_true_iff in H. destruct H as [H Hc].
  apply andb_true_iff in H. destruct H as [Ha Hb].
  apply Ascii.eqb_eq in Ha, Hc. subst a c.
  exists b, q, tail. repeat split; auto using quarter_cases, at_end_cases.
Qed.

Section CommandLine.
Context (E : env).

(** X23: a release that [parse_args] lets through has the shape 2D-Q,
    with a digit D and a quarter Q from 1 to 4 (one newline may follow,
    which [$] lets through), and is handed on with "20" in front; when
    no release is given, none is handed on and the oracle will be asked. *)
Theorem check_normalizes_release (w : world) (args args' : Args.namespace) :
  Args.check E w args = Args.Accepted args' ->
  match Args.release args with
  | Some (String a rest) =>
      exists d q tail,
        is_digit d = true /\ In q ["1"; "2"; "3"; "4"]%char
        /\ (tail = EmptyString \/ tail = String (ascii_of_nat 10) EmptyString)
        /\ String a rest = String "2" (String d (String "-" (String q tail)))
        /\ Args.release args' = Some ("20" ++ String a rest)
  | other => Args.release args' = other
  end.
Proof.
  unfold Args.check.
  destruct (truthy (Args.download_destination args) && _); [discriminate |].
  destruct (Args.download_only args && _); [discriminate |].
  destruct (OS.startswith E "win32" && _); [discriminate |].
  destruct (Args.release args) as [[| a rest] |]; cbn [truthy].
  - destruct (Args.knime args && _); [discriminate |].
    destruct (Args.knime args && _); [discriminate |].
    intros H. inversion H. reflexivity.
  - destruct (Args.release_ok (String a rest)) eqn:Hok; cbn [negb]; [| discriminate].
    destruct (Args.knime args && _); [discriminate |].
    destruct (Args.knime args && _); [discriminate |].
    intros H. inversion H. cbn [Args.release].
    destruct (release_ok_shape _ Hok) as (d & q & tail & Hd & Hq & Htail & Hr).
    exists d, q, tail. repeat split; assumption.
  - destruct (Args.knime args && _); [discriminate |].
    destruct (Args.knime args && _); [discriminate |].
    intros H. inversion H. reflexivity.
Qed.

(** X24: the combinations that [parse_args] lets through.  A download
    destination exists; download-only goes with no installation
    directory; an installation directory is not given on Windows; the
    optional component is asked for only on darwin and only for a bundle
    type other than desres and academic.  All arguments but the release
    are handed on unchanged. *)
Theorem check_accepts_consistent_flags (w : world) (args args' : Args.namespace) :
  Args.check E w args = Args.Accepted args' ->
  (forall d, Args.download_destination args = Some d -> d <> EmptyString ->
             OS.exists_ d w = true)
  /\ (Args.download_only args = true -> truthy (Args.install_destination args) = false)
  /\ (truthy (Args.install_destination args) = true -> OS.startswith E "win32" = false)
  /\ (Args.knime args = true ->
      OS.startswith E "darwin" = true
      /\ Args.bundle_type args <> "desres" /\ Args.bundle_type args <> "academic")
  /\ args' = Args.mkNamespace (Args.bundle_type args) (Args.build_type args)
               (Args.download_destination args) (Args.install_destination args)
               (Args.download_only args) (Args.release args') (Args.knime args)
               (Args.token_path args).
Proof.
  unfold Args.check.
  destruct (truthy (Args.download_destination args) && _) eqn:H1; [discriminate |].
  destruct (Args.download_only args && _) eqn:H2; [discriminate |].
  destruct (OS.startswith E "win32" && _) eqn:H3; [discriminate |].
  intros H.
  assert (H45 : Args.knime args
                && (String.eqb (Args.bundle_type args) "desres"
                    || String.eqb (Args.bundle_type args) "academic") = false
                /\ Args.knime args && negb (OS.startswith E "darwin") = false
                /\ args' = Args.mkNamespace (Args.bundle_type args) (Args.build_type args)
                             (Args.download_destination args) (Args.install_destination args)
                             (Args.download_only args) (Args.release args') (Args.knime args)
                             (Args.token_path args)).
  { destruct (if truthy (Args.release args) then _ else _) as [release' | m];
      [| discriminate].
    destruct (Args.knime args && (_ || _)); [discriminate |].
    destruct (Args.knime args && negb _); [discriminate |].
    inversion H. repeat split; reflexivity. }
  destruct H45 as (H4 & H5 & Hsame).
  split; [| split; [| split; [| split]]].
  - intros d Hd Hne. rewrite Hd in H1. destruct d as [| c r]; [congruence |].
    cbn [truthy andb] in H1. apply negb_false_iff in H1. exact H1.
  - intros Hdl. rewrite Hdl in H2. exact H2.
  - intros Hins. rewrite Hins, andb_true_r in H3. exact H3.
  - intros Hk. rewrite Hk in H4, H5. cbn [andb] in H4, H5.
    apply negb_false_iff in H5. apply orb_false_iff in H4. destruct H4 as [Hd Ha].
    apply String.eqb_neq in Hd, Ha. repeat split; assumption.
  - exact Hsame.
Qed.

End CommandLine.

Lemma check_normalizes_release_witness :
  let E := Demo.demo_env "linux" [] Demo.no_process [] in
  let args := Args.mkNamespace "general" "OB" None None false (Some "24-2") false
                "token.pickle" in
  exists args',
    Args.check E Demo.w0 args = Args.Accepted args'
    /\ Args.release args' = Some "2024-2".
Proof.
  intros E args.
  exists (Args.mkNamespace "general" "OB" None None false (Some "2024-2") false "token.pickle").
  split; [reflexivity |].
  destruct (check_normalizes_release E Demo.w0 args
              (Args.mkNamespace "general" "OB" None None false (Some "2024-2") false
                 "token.pickle") eq_refl)
    as (d & q & tail & _ & _ & _ & _ & Hrel).
  exact Hrel.
Defined.

Lemma check_accepts_consistent_flags_witness :
  let E := Demo.demo_env "darwin" [] Demo.no_process [] in
  let args := Args.mkNamespace "advanced" "NB" None None true None true "token.pickle" in
  OS.startswith E "darwin" = true
  /\ Args.bundle_type args <> "desres" /\ Args.bundle_type args <> "academic".
Proof.
  intros E args.
  apply (proj1 (proj2 (proj2 (proj2
           (check_accepts_consistent_flags E Demo.w0 args args eq_refl))))).
  reflexivity.
Defined.

(** ** [download_tester.py] *)

(** X25: the list of bundles to download has three names for the
    academic bundle and four for any other, and no name occurs twice,
    whatever the release. *)
Theorem download_files_builder_distinct (bundle_type release : string) :
  List.length (Tester.download_files_builder bundle_type release)
  = (if String.eqb bundle_type "academic" then 3 else 4)%nat
  /\ NoDup (Tester.download_files_builder bundle_type release).
Proof.
  assert (Hdiff : forall (a b c d t1 t2 : string),
            a ++ b ++ c ++ d ++ t1 = a ++ b ++ c ++ d ++ t2 -> t1 = t2).
  { intros a b c d t1 t2 H. do 4 apply String.app_inj in H. exact H. }
  unfold Tester.download_files_builder, Tester.get_bundle_name.
  destruct (String.eqb bundle_type "academic"); cbn [negb List.map app List.length];
    (split; [reflexivity |]).
  - rewrite !NoDup_cons, !not_elem_of_cons.
    repeat split; try apply not_elem_of_nil; try apply NoDup_nil_2;
      intros H; apply Hdiff in H; vm_compute in H; discriminate H.
  - destruct (String.eqb bundle_type "advanced");
      rewrite !NoDup_cons, !not_elem_of_cons;
      repeat split; try apply not_elem_of_nil; try apply NoDup_nil_2;
      intros H; apply Hdiff in H; vm_compute in H; discriminate H.
Qed.

Section TesterFiles.
Context (E : env).

(** X27: [remove_installers] never raises, removes the listed names that
    are regular files in the download directory, and changes no other
    path: a listed name that is a directory, or is not there, is left
    alone. *)
Theorem remove_installers_only_listed_files (download_dir : string)
    (files_to_remove : list string) (w : world) :
  exists w',
    Tester.remove_installers E download_dir files_to_remove w = (w', Ok tt)
    /\ forall k,
         fs w' !! k
         = if existsb (String.eqb k) (List.map (os_path_join E download_dir) files_to_remove)
              && OS.isfile k w
           then None else fs w !! k.
Proof.
  revert w. induction files_to_remove as [| fname rest IH]; intros w.
  - exists w. split; [reflexivity |]. intros k. reflexivity.
  - cbn [Tester.remove_installers List.map existsb].
    set (j := os_path_join E download_dir fname).
    unfold bind at 1. unfold bind at 1. unfold OS.isfile at 1, OS.remove.
    destruct (fs w !! j) as [[c |] |] eqn:Hj.
    + rewrite Hj.
      destruct (IH (log (EvRemove j) (set_fs (delete j (fs w)) w))) as (w' & Hrun & Hfs).
      exists w'. split; [exact Hrun |]. intros k. rewrite Hfs.
      unfold OS.isfile. cbn [fs log set_fs].
      destruct (String.eqb k j) eqn:Hk.
      * apply String.eqb_eq in Hk. subst k. rewrite lookup_delete_eq, Hj.
        cbn [orb andb]. rewrite andb_false_r. reflexivity.
      * apply String.eqb_neq in Hk. rewrite lookup_delete_ne by congruence. reflexivity.
    + unfold ret. destruct (IH w) as (w' & Hrun & Hfs).
      exists w'. split; [exact Hrun |]. intros k. rewrite Hfs.
      destruct (String.eqb k j) eqn:Hk; [| reflexivity].
      apply String.eqb_eq in Hk. subst k. unfold OS.isfile. rewrite Hj.
      rewrite !andb_false_r. reflexivity.
    + unfold ret. destruct (IH w) as (w' & Hrun & Hfs).
      exists w'. split; [exact Hrun |]. intros k. rewrite Hfs.
      destruct (String.eqb k j) eqn:Hk; [| reflexivity].
      apply String.eqb_eq in Hk. subst k. unfold OS.isfile. rewrite Hj.
      rewrite !andb_false_r. reflexivity.
Qed.

End TesterFiles.

Lemma build_id_ok_shape (b : string) :
  Args.build_id_ok b = true ->
  exists d1 d2 d3 tail,
    is_digit d1 = true /\ is_digit d2 = true /\ is_digit d3 = true
    /\ (tail = EmptyString \/ tail = String (ascii_of_nat 10) EmptyString)
    /\ b = String d1 (String d2 (String d3 tail)).
Proof.
  destruct b as [| d1 [| d2 [| d3 tail]]]; try discriminate.
  cbn [Args.build_id_ok]. intros H.
  apply andb_true_iff in H. destruct H as [H Hend].
  apply andb_true_iff in H. destruct H as [H H3].
  apply andb_true_iff in H. destruct H as [H1 H2].
  exists d1, d2, d3, tail. repeat split; auto using at_end_cases.
Qed.

(** X28: the arguments that the tester lets through are handed on
    unchanged; the release has the shape 2D-Q, and exactly one of a
    build id and the manual flag is given, a build id being three digits
    (one newline may follow). *)
Theorem tester_check_accepts (args args' : Tester.namespace) :
  Tester.check args = Args.Accepted args' ->
  args' = args
  /\ Args.release_ok (Tester.release args) = true
  /\ ((Tester.manual args = true /\ truthy (Tester.build_id args) = false)
      \/ (Tester.manual args = false
          /\ exists d1 d2 d3 tail,
               is_digit d1 = true /\ is_digit d2 = true /\ is_digit d3 = true
               /\ (tail = EmptyString \/ tail = String (ascii_of_nat 10) EmptyString)
               /\ Tester.build_id args = Some (String d1 (String d2 (String d3 tail))))).
Proof.
  unfold Tester.check.
  destruct (Args.release_ok (Tester.release args)); cbn [negb]; [| discriminate].
  destruct (Tester.build_id args) as [[| c r] |] eqn:Hb; cbn [truthy negb andb];
    destruct (Tester.manual args); cbn [negb andb]; try discriminate.
  - intros H. inversion H. auto.
  - destruct (Args.build_id_ok (String c r)) eqn:Hok; cbn [negb]; [| discriminate].
    intros H. inversion H. split; [reflexivity |]. split; [reflexivity |]. right.
    split; [reflexivity |].
    destruct (build_id_ok_shape _ Hok) as (d1 & d2 & d3 & tail & Hd1 & Hd2 & Hd3 & Ht & Heq).
    exists d1, d2, d3, tail. rewrite Heq. auto.
  - intros H. inversion H. auto.
Qed.

Lemma tester_check_accepts_witness :
  let args := Tester.mkNamespace "academic" "21-1" (Some "161") false in
  Args.release_ok (Tester.release args) = true
  /\ ((Tester.manual args = true /\ truthy (Tester.build_id args) = false)
      \/ (Tester.manual args = false
          /\ exists d1 d2 d3 tail,
               is_digit d1 = true /\ is_digit d2 = true /\ is_digit d3 = true
               /\ (tail = EmptyString \/ tail = String (ascii_of_nat 10) EmptyString)
               /\ Tester.build_id args = Some (String d1 (String d2 (String d3 tail))))).
Proof.
  intros args.
  apply (proj2 (tester_check_accepts args args eq_refl)).
Defined.
